(** * influencer-maker: the generation orchestration layer

    A shallow embedding of [src/services/geminiService.ts]: credential
    lookup ([getAiClient]), payload normalisation ([cleanBase64]), the
    centralised error handler ([handleGeminiError]), the single-image
    helper ([generateSingleImage]), studio mode ([generateStudioImage])
    and the batch orchestrator ([generateStoryBatch]).

    JavaScript strings are modelled by [string]; every needle the code
    searches for is ASCII, so searching bytes and searching UTF-16 code
    units agree.  JavaScript numbers are binary64 floats ([PrimFloat]).
    [localStorage] is a finite map from keys to strings.  A call either
    returns or throws ([Completion]); the functions that talk to the
    outside world thread a [World] through. *)

From Stdlib Require Import PrimFloat Ascii.
From stdpp Require Import gmap strings list.

Set Default Proof Using "Type".

(** ** Strings *)

Module Str.

(** [strip_prefix p s] is [Some r] exactly when [s] is [p] followed by
    [r]: an anchored match of a literal. *)
Fixpoint strip_prefix (p s : string) : option string :=
  match p, s with
  | EmptyString, _ => Some s
  | String a p', String b s' =>
      if Ascii.eqb a b then strip_prefix p' s' else None
  | String _ _, EmptyString => None
  end.

(** [String.prototype.includes] for a literal needle. *)
Fixpoint includes (s needle : string) : bool :=
  match strip_prefix needle s with
  | Some _ => true
  | None =>
      match s with
      | EmptyString => false
      | String _ s' => includes s' needle
      end
  end.

(** JavaScript truthiness of a string. *)
Definition truthy (s : string) : bool :=
  match s with EmptyString => false | String _ _ => true end.

End Str.

(** ** Payload normalisation *)

(** The alternation [(png|jpeg|jpg|webp)] of the regular expression. *)
Definition image_formats : list string := ["png"; "jpeg"; "jpg"; "webp"].

(** Match one of [alts] followed by the literal [suffix] at the start of
    [s], trying the alternatives from left to right as the regular
    expression engine does; the result is what follows the match. *)
Fixpoint match_alternation (alts : list string) (suffix s : string) : option string :=
  match alts with
  | [] => None
  | a :: alts' =>
      match Str.strip_prefix (a +:+ suffix) s with
      | Some r => Some r
      | None => match_alternation alts' suffix s
      end
  end.

(** [base64Data.replace(/^data:image\/(png|jpeg|jpg|webp);base64,/, '')] *)
Definition cleanBase64 (base64Data : string) : string :=
  match Str.strip_prefix "data:image/" base64Data with
  | Some r =>
      match match_alternation image_formats ";base64," r with
      | Some rest => rest
      | None => base64Data
      end
  | None => base64Data
  end.

(** The header the regular expression recognises, for one format. *)
Definition image_header (fmt : string) : string :=
  "data:image/" +:+ fmt +:+ ";base64,".

(** A base64 data-URI header for an arbitrary media type. *)
Definition data_uri_header (mime : string) : string :=
  "data:" +:+ mime +:+ ";base64,".

(** ** Values thrown, and how a call ends *)

(** A thrown value as the handler reads it: [error.message] (absent on
    a thrown value without one, such as a string) and
    [error.toString()].  The values [null] and [undefined], which have
    neither, are not thrown by the module or by the service client. *)
Record JsError := {
  message : option string;
  toString : string
}.

(** [new Error(msg)]; [Error.prototype.toString] prints the bare name
    when the message is empty. *)
Definition Error (msg : string) : JsError :=
  {| message := Some msg;
     toString := if Str.truthy msg then "Error: " +:+ msg else "Error" |}.

(** What the engine throws when a property of [null] is read. *)
Definition TypeError (msg : string) : JsError :=
  {| message := Some msg;
     toString := if Str.truthy msg then "TypeError: " +:+ msg else "TypeError" |}.

Inductive Completion (A : Type) : Type :=
| Return (a : A)
| Throw (e : JsError).
Arguments Return {A} a.
Arguments Throw {A} e.

(** ** The external service *)

Inductive ModelType := standard | pro.

Inductive AspectRatio := r1_1 | r3_4 | r4_3 | r9_16 | r16_9.

(** [part.inlineData] *)
Record Blob := {
  mimeType : option string;
  data : option string
}.

Record Part := {
  inlineData : option Blob;
  text : option string
}.

Record Content := { parts : list Part }.

Record Candidate := { content : Content }.

Record GenerateContentResponse := {
  candidates : option (list Candidate)
}.

(** [new GoogleGenAI({ apiKey })] *)
Record GoogleGenAI := { apiKey : string }.

(** One call of [ai.models.generateContent] as [generateSingleImage]
    issues it: the client's key, the model, the two parts of
    [contents] and [config.imageConfig.aspectRatio]. *)
Record GenerateContentParameters := {
  client : GoogleGenAI;
  model : string;
  contents_text : string;
  contents_inlineData : Blob;
  imageConfig_aspectRatio : AspectRatio
}.

(** What lies outside the module: the build-time [process.env.API_KEY],
    the remote service (its answer to a request may depend on the
    requests it received before; a rejected promise is a [Throw]) and
    the engine's conversion of a number to a string. *)
Class Platform := {
  API_KEY : option string;
  generateContent :
    list GenerateContentParameters -> GenerateContentParameters ->
    Completion GenerateContentResponse;
  Number_toString : float -> string
}.

(** The state the module reads or writes: the browser's [localStorage],
    the requests sent so far (oldest first) and what [console.error]
    has printed (oldest first). *)
Record World := {
  localStorage : gmap string string;
  sent : list GenerateContentParameters;
  console_error : list JsError
}.

(** A computation over the world that returns or throws. *)
Definition Js (A : Type) : Type := World -> Completion A * World.

#[global] Instance Js_ret : MRet Js :=
  fun A (a : A) w => (Return a, w).

#[global] Instance Js_bind : MBind Js :=
  fun A B (k : A -> Js B) (m : Js A) w =>
    match m w with
    | (Return a, w') => k a w'
    | (Throw e, w') => (Throw e, w')
    end.

Definition throw {A : Type} (e : JsError) : Js A :=
  fun w => (Throw e, w).

(** [try { body } catch (e) { handler e }] *)
Definition try_catch {A : Type} (body : Js A) (handler : JsError -> Js A) : Js A :=
  fun w =>
    match body w with
    | (Return a, w') => (Return a, w')
    | (Throw e, w') => handler e w'
    end.

(** [a || b] on possibly absent strings. *)
Definition or_else (a b : option string) : option string :=
  match a with
  | Some s => if Str.truthy s then Some s else b
  | None => b
  end.

Definition localStorage_getItem (key : string) : Js (option string) :=
  fun w => (Return (localStorage w !! key), w).

Definition console_error_log (e : JsError) : Js unit :=
  fun w =>
    (Return tt,
     {| localStorage := localStorage w;
        sent := sent w;
        console_error := console_error w ++ [e] |}).

(** [ai.models.generateContent(params)]: the request leaves when the
    call is made; the awaited promise resolves or rejects. *)
Definition models_generateContent `{Platform}
    (params : GenerateContentParameters) : Js GenerateContentResponse :=
  fun w =>
    (generateContent (sent w) params,
     {| localStorage := localStorage w;
        sent := sent w ++ [params];
        console_error := console_error w |}).

(** ** The module *)

Definition getAiClient `{Platform} : Js GoogleGenAI :=
  stored ← localStorage_getItem "gemini_api_key";
  match or_else stored API_KEY with
  | Some key =>
      if Str.truthy key then mret {| apiKey := key |}
      else throw (Error "API Key not found. Please click the Key icon to register your API Key.")
  | None =>
      throw (Error "API Key not found. Please click the Key icon to register your API Key.")
  end.

Definition getModelName (type : ModelType) : string :=
  match type with
  | pro => "gemini-3-pro-image-preview"
  | standard => "gemini-2.5-flash-image"
  end.

(** [error.message || error.toString()] *)
Definition error_msg (error : JsError) : string :=
  match message error with
  | Some m => if Str.truthy m then m else toString error
  | None => toString error
  end.

Definition billing_required : string :=
  "Access Denied (403). 'Banana Pro' requires a Google Cloud Project with Billing enabled. Please switch to 'Flash Lite' or use a paid API key.".

Definition access_denied : string :=
  "Access Denied (403). Please check if your API Key is valid and has permissions for the Generative AI API.".

Definition quota_exceeded : string :=
  "Quota Exceeded (429). You are generating too fast. Please wait a moment.".

(** The centralised error handler; [modelType] is optional. *)
Definition handleGeminiError (error : JsError) (modelType : option ModelType) : Js unit :=
  _ ← console_error_log error;
  let msg := error_msg error in
  if Str.includes msg "403" || Str.includes msg "PERMISSION_DENIED" then
    match modelType with
    | Some pro => throw (Error billing_required)
    | _ => throw (Error access_denied)
    end
  else if Str.includes msg "429" then
    throw (Error quota_exceeded)
  else
    throw error.

(** [part.inlineData && part.inlineData.data]: the payload of a part
    that carries non-empty inline data. *)
Definition inline_payload (part : Part) : option string :=
  match inlineData part with
  | Some blob =>
      match data blob with
      | Some d => if Str.truthy d then Some d else None
      | None => None
      end
  | None => None
  end.

(** The [for (const part of parts)] loop shared by the two generators:
    it returns from the function at the first part with a payload. *)
Fixpoint scan_parts (ps : list Part) : option string :=
  match ps with
  | [] => None
  | part :: rest =>
      match inline_payload part with
      | Some d => Some ("data:image/png;base64," +:+ d)
      | None => scan_parts rest
      end
  end.

(** What [generateSingleImage] does with the awaited response. *)
Definition generateSingleImage_response
    (response : GenerateContentResponse) : Js string :=
  match candidates response with
  | Some (candidate :: _) =>
      match scan_parts (parts (content candidate)) with
      | Some url => mret url
      | None => throw (Error "No image generated")
      end
  | _ => throw (Error "No image generated")
  end.

Definition fullPrompt (prompt : string) : string :=
"
    Generate a photorealistic influencer photo based on the reference person.
    
    CRITICAL INSTRUCTION: Preserve the facial identity, hair, and body type of the reference image exactly.
    
    SCENE DESCRIPTION: " +:+ prompt +:+ "
    
    STYLE: 4k, cinematic, social media aesthetic, high detail.
  ".

(** Helper: generate image from prompt.  The [catch] clause re-throws. *)
Definition generateSingleImage `{Platform}
    (referenceImageBase64 prompt : string)
    (modelType : ModelType) (aspectRatio : AspectRatio) : Js string :=
  ai ← getAiClient;
  try_catch
    (response ← models_generateContent
       {| client := ai;
          model := getModelName modelType;
          contents_text := fullPrompt prompt;
          contents_inlineData :=
            {| mimeType := Some "image/jpeg";
               data := Some (cleanBase64 referenceImageBase64) |};
          imageConfig_aspectRatio := aspectRatio |};
     generateSingleImage_response response)
    (fun error => throw error).

(** [parts.find(p => p.text)] followed by [textPart?.text]. *)
Fixpoint find_text (ps : list Part) : option string :=
  match ps with
  | [] => None
  | p :: rest =>
      match text p with
      | Some t => if Str.truthy t then Some t else find_text rest
      | None => find_text rest
      end
  end.

(** What the sibling [generateReferenceImage] does with its response,
    inside its [try] block: the same scan, then the refusal check that
    [generateSingleImage] does not have. *)
Definition generateReferenceImage_response
    (response : GenerateContentResponse) : Js string :=
  match candidates response with
  | Some (candidate :: _) =>
      let ps := parts (content candidate) in
      match scan_parts ps with
      | Some url => mret url
      | None =>
          match find_text ps with
          | Some t => throw (Error ("Model refused: " +:+ t))
          | None => throw (Error "No image generated.")
          end
      end
  | _ => throw (Error "No image generated.")
  end.

(** ** Studio mode *)

Record CameraSettings := {
  rotation : float;
  zoom : float;
  vertical : float;
  isWideAngle : bool
}.

Record Persona := {
  nickname : string;
  age : string;
  occupation : string;
  personality : string;
  lifestyle : string;
  vibe : string;
  description : string;
  hashtags : list string
}.

#[local] Set Warnings "-inexact-float".

Definition rotation_phrase `{Platform} (settings : CameraSettings) : string :=
  if PrimFloat.ltb (rotation settings) (-10)%float then
    "Profile view from the left (" +:+
    Number_toString (PrimFloat.abs (rotation settings)) +:+ " degrees), "
  else if PrimFloat.ltb 10%float (rotation settings) then
    "Profile view from the right (" +:+
    Number_toString (rotation settings) +:+ " degrees), "
  else "Front facing view, ".

Definition vertical_phrase (settings : CameraSettings) : string :=
  if PrimFloat.ltb (vertical settings) (-0.3)%float then
    "Low angle shot (worm's eye view), "
  else if PrimFloat.ltb 0.3%float (vertical settings) then
    "High angle shot (bird's eye view), "
  else "Eye-level shot, ".

Definition zoom_phrase (settings : CameraSettings) : string :=
  if PrimFloat.ltb 7%float (zoom settings) then
    "Extreme close-up on face, detailed features, "
  else if PrimFloat.ltb 3%float (zoom settings) then
    "Medium close-up (head and shoulders), "
  else "Full body shot, ".

Definition lens_phrase (settings : CameraSettings) : string :=
  if isWideAngle settings then
    "Shot with a wide-angle lens (16mm), slightly distorted perspective, "
  else "Shot with a portrait lens (85mm), ".

(** The value of [cameraDescription] after the four [+=] statements. *)
Definition cameraDescription `{Platform} (settings : CameraSettings) : string :=
  let cameraDescription := "" in
  let cameraDescription := cameraDescription +:+ rotation_phrase settings in
  let cameraDescription := cameraDescription +:+ vertical_phrase settings in
  let cameraDescription := cameraDescription +:+ zoom_phrase settings in
  let cameraDescription := cameraDescription +:+ lens_phrase settings in
  cameraDescription.

Definition studio_prompt `{Platform}
    (settings : CameraSettings) (persona : Persona) : string :=
"
    Studio photography session of " +:+ nickname persona +:+ ". 
    Age: " +:+ age persona +:+ ". Occupation: " +:+ occupation persona +:+ ".
    " +:+ vibe persona +:+ " style.
    
    CAMERA SETUP: " +:+ cameraDescription settings +:+ "
    
    The subject is posing professionally in a studio or clean aesthetic environment.
    Lighting should be high-quality studio lighting.
  ".

(** The [{ url, prompt }] objects handed to the caller. *)
Record GeneratedImage := {
  image_url : string;
  image_prompt : string
}.

Definition generateStudioImage `{Platform}
    (referenceImageBase64 : string) (settings : CameraSettings)
    (persona : Persona) (modelType : ModelType)
    (aspectRatio : AspectRatio) : Js GeneratedImage :=
  let prompt := studio_prompt settings persona in
  try_catch
    (url ← generateSingleImage referenceImageBase64 prompt modelType aspectRatio;
     mret {| image_url := url; image_prompt := prompt |})
    (fun error =>
       _ ← handleGeminiError error (Some modelType);
       mret {| image_url := ""; image_prompt := "" |}).

(** ** The orchestrator *)

(** What each mapped promise resolves to. *)
Record FrameResult := {
  url : string;
  prompt : string;
  success : bool;
  error : option JsError
}.

(** The [async (prompt) => { try ... catch ... }] callback.  Its
    [console.warn] is not modelled. *)
Definition generateFrame `{Platform}
    (referenceImageBase64 : string) (modelType : ModelType)
    (aspectRatio : AspectRatio) (prompt : string) : Js FrameResult :=
  try_catch
    (url ← generateSingleImage referenceImageBase64 prompt modelType aspectRatio;
     mret {| url := url; prompt := prompt; success := true; error := None |})
    (fun e =>
       mret {| url := ""; prompt := prompt; success := false; error := Some e |}).

(** [Promise.all(items.map(f))].  Every callback runs up to its first
    [await] as soon as it is created, so the requests leave in the order
    of [items]; the array of results is in the order of [items] whatever
    the order in which the promises settle; a callback that throws
    rejects the whole. *)
Fixpoint Promise_all_map {A B : Type} (f : A -> Js B) (items : list A) : Js (list B) :=
  match items with
  | [] => mret []
  | x :: rest =>
      y ← f x;
      ys ← Promise_all_map f rest;
      mret (y :: ys)
  end.

(** [r.error.message?.includes(needle)] *)
Definition message_includes (e : JsError) (needle : string) : bool :=
  match message e with
  | Some m => Str.includes m needle
  | None => false
  end.

(** The predicate of [results.find]. *)
Definition is_fatal (r : FrameResult) : bool :=
  match error r with
  | Some e => message_includes e "403" || message_includes e "PERMISSION_DENIED"
  | None => false
  end.

(** The predicate of [results.filter]. *)
Definition is_delivered (r : FrameResult) : bool :=
  success r && Str.truthy (url r).

Definition generateStoryBatch `{Platform}
    (referenceImageBase64 : string) (prompts : list string)
    (modelType : ModelType) (aspectRatio : AspectRatio) : Js (list GeneratedImage) :=
  results ← Promise_all_map
    (generateFrame referenceImageBase64 modelType aspectRatio) prompts;
  _ ← match List.find is_fatal results with
      | Some fatalError =>
          match error fatalError with
          | Some e => handleGeminiError e (Some modelType)
          | None => throw (TypeError "Cannot read properties of null (reading 'message')")
          end
      | None => mret tt
      end;
  mret (List.map (fun r => {| image_url := url r; image_prompt := prompt r |})
          (List.filter is_delivered results)).

(** * Vocabulary of the properties *)

(** ** Credentials *)

(** [localStorage.setItem(key, value)], as the key dialog of the
    application calls it between two operations. *)
Definition localStorage_setItem (key value : string) (w : World) : World :=
  {| localStorage := <[key := value]> (localStorage w);
     sent := sent w;
     console_error := console_error w |}.

(** The non-empty value of a source, if it has one. *)
Definition non_empty (source : option string) : option string :=
  match source with
  | Some s => if Str.truthy s then Some s else None
  | None => None
  end.

Definition missing_credential : JsError :=
  Error "API Key not found. Please click the Key icon to register your API Key.".

(** The credential a world resolves to: the registered one first. *)
Definition resolve_credential `{Platform} (w : World) : Completion GoogleGenAI :=
  match non_empty (localStorage w !! "gemini_api_key"), non_empty API_KEY with
  | Some key, _ => Return {| apiKey := key |}
  | None, Some key => Return {| apiKey := key |}
  | None, None => Throw missing_credential
  end.

(** ** Classification *)

(** The message carries a 403 or permission-denied indicator. *)
Definition permission_indicator (msg : string) : bool :=
  Str.includes msg "403" || Str.includes msg "PERMISSION_DENIED".

(** The error the handler throws for a permission failure. *)
Definition permission_error (modelType : option ModelType) : JsError :=
  match modelType with
  | Some pro => Error billing_required
  | _ => Error access_denied
  end.

Definition empty_world : World :=
  {| localStorage := ∅; sent := []; console_error := [] |}.

(** ** Responses and requests *)

(** The part carries the non-empty binary payload [d]. *)
Definition carries_image (part : Part) (d : string) : Prop :=
  exists blob, inlineData part = Some blob /\ data blob = Some d /\ d <> "".

(** The part carries no binary payload. *)
Definition no_image (part : Part) : Prop :=
  forall d, ~ carries_image part d.

(** The request [generateSingleImage] sends. *)
Definition single_image_request
    (ai : GoogleGenAI) (referenceImageBase64 prompt : string)
    (modelType : ModelType) (aspectRatio : AspectRatio) : GenerateContentParameters :=
  {| client := ai;
     model := getModelName modelType;
     contents_text := fullPrompt prompt;
     contents_inlineData :=
       {| mimeType := Some "image/jpeg";
          data := Some (cleanBase64 referenceImageBase64) |};
     imageConfig_aspectRatio := aspectRatio |}.

(** The world once one more request has left. *)
Definition after_request (params : GenerateContentParameters) (w : World) : World :=
  {| localStorage := localStorage w;
     sent := sent w ++ [params];
     console_error := console_error w |}.

(** How the helper ends on a given response. *)
Definition response_outcome (response : GenerateContentResponse) : Completion string :=
  fst (generateSingleImage_response response empty_world).

(** ** Units of a batch *)

(** The captured error carries a 403 or permission-denied message. *)
Definition permission_denied (e : JsError) : Prop :=
  exists m, message e = Some m /\
    (Str.includes m "403" = true \/ Str.includes m "PERMISSION_DENIED" = true).

(** The unit ended in a fatal failure. *)
Definition fatal_outcome (outcome : string * Completion string) : Prop :=
  exists e, outcome.2 = Throw e /\ permission_denied e.

(** The unit returned an image. *)
Definition succeeded (outcome : string * Completion string) : Prop :=
  exists u, outcome.2 = Return u.

(** The successful units with their prompts, in the order of the units. *)
Fixpoint successes (outcomes : list (string * Completion string)) : list GeneratedImage :=
  match outcomes with
  | [] => []
  | (p, Return u) :: rest => {| image_url := u; image_prompt := p |} :: successes rest
  | (_, Throw _) :: rest => successes rest
  end.

(** The image is what the unit of that prompt returned. *)
Definition image_of_unit (image : GeneratedImage) (outcome : string * Completion string) : Prop :=
  outcome = (image_prompt image, Return (image_url image)).

(** What the mapped callback makes of the way its unit ended. *)
Definition frame_of (outcome : string * Completion string) : FrameResult :=
  match outcome with
  | (p, Return u) => {| url := u; prompt := p; success := true; error := None |}
  | (p, Throw e) => {| url := ""; prompt := p; success := false; error := Some e |}
  end.

Section Units.
Context `{Platform}.
Variables (referenceImageBase64 : string) (modelType : ModelType)
  (aspectRatio : AspectRatio).

(** How each unit of a batch ends, the units being started one after
    the other from the world [w]. *)
Fixpoint unit_outcomes (prompts : list string) (w : World) :
    list (string * Completion string) :=
  match prompts with
  | [] => []
  | p :: rest =>
      let r := generateSingleImage referenceImageBase64 p modelType aspectRatio w in
      (p, r.1) :: unit_outcomes rest r.2
  end.

(** The world once every unit has been started. *)
Fixpoint after_units (prompts : list string) (w : World) : World :=
  match prompts with
  | [] => w
  | p :: rest =>
      after_units rest
        (generateSingleImage referenceImageBase64 p modelType aspectRatio w).2
  end.

End Units.

(** ** Platforms and responses for concrete runs *)

(** A platform whose service gives its n-th answer to the n-th request
    it receives; once the script is over every request is rejected. *)
Definition scripted (answers : list (Completion GenerateContentResponse)) : Platform :=
  {| API_KEY := Some "env-key";
     generateContent := fun history _ =>
       List.nth (length history) answers (Throw (Error "fetch failed"));
     Number_toString := fun _ => "" |}.

Definition image_part (d : string) : Part :=
  {| inlineData := Some {| mimeType := Some "image/webp"; data := Some d |};
     text := None |}.

Definition text_part (t : string) : Part :=
  {| inlineData := None; text := Some t |}.

Definition candidate_of (ps : list Part) : Candidate :=
  {| content := {| parts := ps |} |}.

Definition response_of (ps : list Part) : GenerateContentResponse :=
  {| candidates := Some [candidate_of ps] |}.

(** * The other operations of the module *)

(** The double quote, spliced into the templates that contain one. *)
Definition dq : string := String (Ascii.ascii_of_nat 34) "".

(** The fields of [CreatorAttributes] that [generateReferenceImage]
    reads.  The declaration of the type (types.ts) is not among the
    sources: each field holds the text the template interpolates for
    it. *)
Module Creator.
Record Attributes := {
  gender : string;
  age : string;
  ethnicity : string;
  build : string;
  height : string;
  eyeColor : string;
  hairColor : string;
  hairStyle : string;
  fashionStyle : string;
  vibe : string
}.
End Creator.

#[local] Set Warnings "-register-all".

(** [responseSchema]: the three kinds of [Type] the module uses. *)
Inductive Schema :=
| Type_STRING
| Type_ARRAY (items : Schema)
| Type_OBJECT (properties : list (string * Schema)) (required : list string).

(** The calls of [ai.models.generateContent] outside the single-image
    helper: the text-only request of [generateReferenceImage], the
    prompt and image of [analyzePersona] and the string of [planStory],
    the last two with [config.responseMimeType] and
    [config.responseSchema]. *)
Inductive ContentRequest :=
| ReferenceImageRequest
    (ai : GoogleGenAI) (model : string) (prompt : string) (aspectRatio : AspectRatio)
| PersonaRequest
    (ai : GoogleGenAI) (model : string) (prompt : string) (image : Blob)
    (responseMimeType : string) (responseSchema : Schema)
| StoryRequest
    (ai : GoogleGenAI) (model : string) (contents : string)
    (responseMimeType : string) (responseSchema : Schema).

(** What these operations need from outside: the service's answer to
    such a request (it may depend on the image requests received
    before), the client's [response.text] getter, [JSON.parse] with the
    values it produces, among them the empty object and the empty
    array, and [String.prototype.trim]. *)
Class Runtime := {
  generateContent_request :
    list GenerateContentParameters -> ContentRequest ->
    Completion GenerateContentResponse;
  response_text : GenerateContentResponse -> option string;
  JsValue : Type;
  JSON_parse : string -> Completion JsValue;
  empty_object : JsValue;
  empty_array : JsValue;
  String_trim : string -> string
}.

(** [ai.models.generateContent(request)] for these requests; [sent]
    lists the requests of the single-image helper only. *)
Definition models_generateContent_request `{Runtime}
    (request : ContentRequest) : Js GenerateContentResponse :=
  fun w => (generateContent_request (sent w) request, w).

Definition reference_prompt (attrs : Creator.Attributes) : string :=
"
    Generate a high-quality, photorealistic portrait of a virtual fashion model.
    
    VISUAL ATTRIBUTES:
    - Gender: " +:+
Creator.gender attrs +:+
"
    - Age Appearance: Approx " +:+
Creator.age attrs +:+
" years old
    - Ethnicity/Heritage: " +:+
Creator.ethnicity attrs +:+
"
    - Physique: " +:+
Creator.build attrs +:+
" build, approx " +:+
Creator.height attrs +:+
"cm tall
    - Face: " +:+
Creator.eyeColor attrs +:+
" eyes, clear skin texture
    
    HAIR & STYLE:
    - Hair: " +:+
Creator.hairColor attrs +:+
", " +:+
Creator.hairStyle attrs +:+
"
    - Fashion: " +:+
Creator.fashionStyle attrs +:+
"
    - Vibe: " +:+
Creator.vibe attrs +:+
"

    COMPOSITION: 
    Professional studio photography, front-facing portrait or 3/4 view.
    Neutral, soft-focus background. 
    Lighting: Cinematic studio lighting, 8k resolution, highly detailed.
  ".

(** Step 0: generate a base reference image from scratch.  The second
    and third parameters have defaults. *)
Definition generateReferenceImage `{Platform} `{Runtime}
    (attrs : Creator.Attributes) (modelType : option ModelType)
    (aspectRatio : option AspectRatio) : Js string :=
  let modelType := default standard modelType in
  let aspectRatio := default r1_1 aspectRatio in
  ai ← getAiClient;
  let prompt := reference_prompt attrs in
  try_catch
    (response ← models_generateContent_request
       (ReferenceImageRequest ai (getModelName modelType) prompt aspectRatio);
     generateReferenceImage_response response)
    (fun error =>
       _ ← handleGeminiError error (Some modelType);
       throw (Error "Failed to generate reference image")).

Definition persona_prompt : string :=
"
    이 사진 속 인물의 시각적 특징을 깊이 분석하여 구체적인 " +:+
dq +:+
"인플루언서 페르소나" +:+
dq +:+
"를 설정해주세요.
    응답은 반드시 **한국어(Korean)**로 작성해야 합니다.
    
    다음 항목들을 상상력을 발휘하여 구체적으로 정의하세요:
    1. **나이(Age)**: 대략적인 나이대 (예: 20대 중반, 30대 초반)
    2. **직업(Occupation)**: 외모와 분위기에 어울리는 직업 (예: 피트니스 강사, 스타트업 CEO, 여행 작가)
    3. **성격(Personality)**: 표정과 포즈에서 느껴지는 성격 (예: 자신감 넘치고 외향적, 차분하고 지적임)
    4. **라이프스타일(Lifestyle)**: 즐길 것 같은 취미나 생활 방식 (예: 주말마다 서핑, 럭셔리 호텔 투어, 빈티지 카페 탐방)
    5. **스타일(Vibe)**: 전반적인 패션 및 분위기 키워드
    6. **별명(Nickname)**: 부르기 쉽고 기억에 남는 별명
    7. **소개글(Description)**: 이 페르소나를 한 줄로 요약하는 문장 (15단어 이내)
    8. **해시태그**: 관련 태그 3~4개
  ".

Definition persona_schema : Schema :=
  Type_OBJECT
    [("nickname", Type_STRING); ("age", Type_STRING); ("occupation", Type_STRING);
     ("personality", Type_STRING); ("lifestyle", Type_STRING); ("vibe", Type_STRING);
     ("description", Type_STRING); ("hashtags", Type_ARRAY Type_STRING)]
    ["nickname"; "age"; "occupation"; "personality"; "lifestyle"; "vibe";
     "description"; "hashtags"].

(** [!response.text] followed by [JSON.parse(response.text)], as
    [analyzePersona] and [planStory] have it. *)
Definition parse_response_text `{Runtime}
    (response : GenerateContentResponse) (failure : string) : Js JsValue :=
  match response_text response with
  | Some t =>
      if Str.truthy t then
        match JSON_parse t with
        | Return v => mret v
        | Throw e => throw e
        end
      else throw (Error failure)
  | None => throw (Error failure)
  end.

(** Step 1: analyze the image to create a detailed persona. *)
Definition analyzePersona `{Platform} `{Runtime}
    (referenceImageBase64 : string) : Js JsValue :=
  ai ← getAiClient;
  let prompt := persona_prompt in
  try_catch
    (response ← models_generateContent_request
       (PersonaRequest ai "gemini-2.5-flash" prompt
          {| mimeType := Some "image/jpeg";
             data := Some (cleanBase64 referenceImageBase64) |}
          "application/json" persona_schema);
     parse_response_text response "Failed to generate persona")
    (fun error =>
       _ ← handleGeminiError error None;
       mret empty_object).

Definition baseContext (persona : Persona) (userScenario : option string) : string :=
"
    We are creating a photo series (8 images) for a virtual influencer.
    
    INFLUENCER PROFILE (Detailed Persona):
    - Name: " +:+
nickname persona +:+
"
    - Age: " +:+
age persona +:+
"
    - Job: " +:+
occupation persona +:+
"
    - Personality: " +:+
personality persona +:+
"
    - Lifestyle: " +:+
lifestyle persona +:+
"
    - Vibe: " +:+
vibe persona +:+
"
    
    TASK:
    Create a sequential 8-frame visual storyboard. The images should look like a cohesive story or a " +:+
dq +:+
"day in the life" +:+
dq +:+
" photo dump.
    " +:+
(match userScenario with
 | Some scenario =>
     if Str.truthy scenario then
       "SPECIFIC SCENARIO: The user wants the story to be about: " +:+
       dq +:+ scenario +:+ dq +:+ "."
     else
       "SCENARIO: Create a trending, engaging lifestyle sequence that fits their Job and Lifestyle perfectly."
 | None =>
     "SCENARIO: Create a trending, engaging lifestyle sequence that fits their Job and Lifestyle perfectly."
 end) +:+
"
    
    REQUIREMENTS:
    - Return exactly 8 distinct image prompts.
    - **LOCATION CONSISTENCY (CRITICAL)**: The background and location MUST remain consistent across all 8 frames.
    - Each prompt must describe the outfit, background, action, and lighting.
    - Keep the outfit relatively consistent within the story.
  ".

(** Step 2: plan the story. *)
Definition planStory `{Platform} `{Runtime}
    (persona : Persona) (userScenario : option string) : Js JsValue :=
  ai ← getAiClient;
  try_catch
    (response ← models_generateContent_request
       (StoryRequest ai "gemini-2.5-flash" (baseContext persona userScenario)
          "application/json" (Type_ARRAY Type_STRING));
     parse_response_text response "Failed to plan story")
    (fun error =>
       _ ← handleGeminiError error None;
       mret empty_array).

(** * The key dialog of the application *)

(** The state of [App] that the key dialog reads and sets. *)
Record KeyDialog := {
  tempApiKey : string;
  showApiKeyModal : bool;
  apiKeyError : bool
}.

Definition setApiKeyError (value : bool) (ui : KeyDialog) : KeyDialog :=
  {| tempApiKey := tempApiKey ui;
     showApiKeyModal := showApiKeyModal ui;
     apiKeyError := value |}.

Definition setTempApiKey (value : string) (ui : KeyDialog) : KeyDialog :=
  {| tempApiKey := value;
     showApiKeyModal := showApiKeyModal ui;
     apiKeyError := apiKeyError ui |}.

Definition setShowApiKeyModal (value : bool) (ui : KeyDialog) : KeyDialog :=
  {| tempApiKey := tempApiKey ui;
     showApiKeyModal := value;
     apiKeyError := apiKeyError ui |}.

(** [!!value] *)
Definition is_truthy (value : option string) : bool :=
  match value with
  | Some s => Str.truthy s
  | None => false
  end.

(** [localStorage.setItem(key, value)] as a call; a store that refuses
    the write (a full or disabled store) is not modelled. *)
Definition localStorage_setItem_call (key value : string) : Js unit :=
  fun w => (Return tt, localStorage_setItem key value w).

Definition checkApiKey `{Platform} (ui : KeyDialog) : Js KeyDialog :=
  let hasEnvKey := is_truthy API_KEY in
  stored ← localStorage_getItem "gemini_api_key";
  let hasLocalKey := is_truthy stored in
  if negb hasEnvKey && negb hasLocalKey then
    mret (setApiKeyError true ui)
  else
    mret (setApiKeyError false ui).

Definition handleSaveApiKey `{Platform} `{Runtime} (ui : KeyDialog) : Js KeyDialog :=
  if Str.truthy (String_trim (tempApiKey ui)) then
    _ ← localStorage_setItem_call "gemini_api_key" (String_trim (tempApiKey ui));
    let ui := setTempApiKey "" ui in
    let ui := setShowApiKeyModal false ui in
    checkApiKey ui
  else
    mret ui.

(** ** Shape of what is returned *)

(** The URL is the PNG data-URI of a non-empty payload. *)
Definition png_data_uri (u : string) : Prop :=
  exists d, d <> "" /\ u = "data:image/png;base64," +:+ d.

(** The error [handleGeminiError] throws when it is given [error]. *)
Definition thrown_by_handler
    (error : JsError) (modelType : option ModelType) : Completion unit :=
  fst (handleGeminiError error modelType empty_world).

(** The world once [console.error] has printed [e]. *)
Definition printed (e : JsError) (w : World) : World :=
  {| localStorage := localStorage w;
     sent := sent w;
     console_error := console_error w ++ [e] |}.

(** The error the handler makes of [e]. *)
Definition classified (e : JsError) (modelType : option ModelType) : JsError :=
  if permission_indicator (error_msg e) then permission_error modelType
  else if Str.includes (error_msg e) "429" then Error quota_exceeded
  else e.

(** How [generateReferenceImage] ends on a given response, before the
    handler sees a failure. *)
Definition reference_outcome (response : GenerateContentResponse) : Completion string :=
  fst (generateReferenceImage_response response empty_world).

(** The request [generateReferenceImage] sends. *)
Definition reference_request
    (ai : GoogleGenAI) (attrs : Creator.Attributes)
    (modelType : option ModelType) (aspectRatio : option AspectRatio) : ContentRequest :=
  ReferenceImageRequest ai (getModelName (default standard modelType))
    (reference_prompt attrs) (default r1_1 aspectRatio).

(** The request [analyzePersona] sends. *)
Definition persona_request (ai : GoogleGenAI) (referenceImageBase64 : string) : ContentRequest :=
  PersonaRequest ai "gemini-2.5-flash" persona_prompt
    {| mimeType := Some "image/jpeg";
       data := Some (cleanBase64 referenceImageBase64) |}
    "application/json" persona_schema.

(** The request [planStory] sends. *)
Definition story_request
    (ai : GoogleGenAI) (persona : Persona) (userScenario : option string) : ContentRequest :=
  StoryRequest ai "gemini-2.5-flash" (baseContext persona userScenario)
    "application/json" (Type_ARRAY Type_STRING).

(** The response has a non-empty text, which parses to [v]. *)
Definition parses_to `{Runtime} (response : GenerateContentResponse) (v : JsValue) : Prop :=
  exists t, response_text response = Some t /\ t <> "" /\ JSON_parse t = Return v.

(** The response has no text, or an empty one. *)
Definition no_text `{Runtime} (response : GenerateContentResponse) : Prop :=
  response_text response = None \/ response_text response = Some "".

(** A runtime for concrete runs: the service answers every request
    with [answer], the text of a response is that of the first text
    part of its first candidate, parsing gives the text back, and
    trimming removes one leading space. *)
Definition plain_runtime (answer : Completion GenerateContentResponse) : Runtime :=
  {| generateContent_request := fun _ _ => answer;
     response_text := fun response =>
       match candidates response with
       | Some (candidate :: _) => find_text (parts (content candidate))
       | _ => None
       end;
     JsValue := string;
     JSON_parse := fun t => Return t;
     empty_object := "{}";
     empty_array := "[]";
     String_trim := fun s =>
       match s with
       | String " " rest => rest
       | _ => s
       end |}.

(** A platform without a key in the environment. *)
Definition keyless (answers : list (Completion GenerateContentResponse)) : Platform :=
  {| API_KEY := None;
     generateContent := fun history _ =>
       List.nth (length history) answers (Throw (Error "fetch failed"));
     Number_toString := fun _ => "" |}.

Definition sample_persona : Persona :=
  {| nickname := "Mina"; age := "20s"; occupation := "barista";
     personality := "calm"; lifestyle := "city"; vibe := "minimal";
     description := "a barista in the city"; hashtags := ["coffee"] |}.

Definition sample_attributes : Creator.Attributes :=
  {| Creator.gender := "female"; Creator.age := "25";
     Creator.ethnicity := "Korean"; Creator.build := "slim";
     Creator.height := "168"; Creator.eyeColor := "brown";
     Creator.hairColor := "black"; Creator.hairStyle := "bob";
     Creator.fashionStyle := "casual"; Creator.vibe := "warm" |}.

(** The state of the camera when the application starts. *)
Definition initial_camera : CameraSettings :=
  {| rotation := 0; zoom := 0; vertical := 0; isWideAngle := false |}.

(** * Properties *)

(** ** Strings *)

Module StrFacts.
Import Str.

Lemma append_nil_l (s : string) : "" +:+ s = s.
Proof. reflexivity. Qed.

Lemma append_cons (a : ascii) (s t : string) :
  String a s +:+ t = String a (s +:+ t).
Proof. reflexivity. Qed.

Lemma append_assoc (a b c : string) : (a +:+ b) +:+ c = a +:+ (b +:+ c).
Proof.
  induction a as [|x a IH]; [done |].
  by rewrite !append_cons, IH.
Qed.

Lemma strip_prefix_spec (p s r : string) :
  strip_prefix p s = Some r <-> s = p +:+ r.
Proof.
  revert s. induction p as [|a p IH]; intros s; simpl.
  - rewrite append_nil_l. split; [by intros [= ->] | by intros ->].
  - rewrite append_cons. destruct s as [|b s]; [split; discriminate |].
    destruct (Ascii.eqb_spec a b) as [->|Hne].
    + rewrite IH. split; [by intros -> | by intros [= ->]].
    + split; [discriminate | intros [= Hab _]; congruence].
Qed.

Lemma strip_prefix_app (p r : string) : strip_prefix p (p +:+ r) = Some r.
Proof. by apply strip_prefix_spec. Qed.

(** [includes] is the substring relation. *)
Lemma includes_spec (s needle : string) :
  includes s needle = true <->
  exists pre post, s = pre +:+ needle +:+ post.
Proof.
  induction s as [|c s IH].
  - simpl. destruct (strip_prefix needle "") as [r|] eqn:E.
    + apply strip_prefix_spec in E. split; [|done].
      intros _. by exists "", r.
    + split; [discriminate |]. intros (pre & post & H).
      destruct pre; [|discriminate].
      rewrite append_nil_l in H.
      apply strip_prefix_spec in H. congruence.
  - cbn [includes]. destruct (strip_prefix needle (String c s)) as [r|] eqn:E.
    + apply strip_prefix_spec in E. split; [|done].
      intros _. by exists "", r.
    + rewrite IH. split.
      * intros (pre & post & ->). by exists (String c pre), post.
      * intros (pre & post & H). destruct pre as [|c' pre].
        -- rewrite append_nil_l in H.
           apply strip_prefix_spec in H. congruence.
        -- rewrite append_cons in H. injection H as _ ->. by exists pre, post.
Qed.

Lemma truthy_append_l (a b : string) : truthy a = true -> truthy (a +:+ b) = true.
Proof. by destruct a. Qed.

Lemma truthy_append_r (a b : string) : truthy b = true -> truthy (a +:+ b) = true.
Proof. by destruct a. Qed.

(** A string that contains a non-empty needle is itself non-empty. *)
Lemma includes_truthy (s needle : string) :
  truthy needle = true -> includes s needle = true -> truthy s = true.
Proof.
  intros Hn (pre & post & ->)%includes_spec.
  apply truthy_append_r. by apply truthy_append_l.
Qed.

End StrFacts.

(** ** Payload normalisation *)

Lemma match_alternation_hit (alts : list string) (suffix fmt rest : string) :
  fmt ∈ alts ->
  (forall a b r r', a ∈ alts -> b ∈ alts ->
     Str.strip_prefix (a +:+ suffix) (b +:+ suffix +:+ r) = Some r' -> r' = r) ->
  match_alternation alts suffix (fmt +:+ suffix +:+ rest) = Some rest.
Proof.
  intros Hin Hdet. induction alts as [|a alts IH]; [by apply elem_of_nil in Hin |].
  simpl. destruct (Str.strip_prefix (a +:+ suffix) _) as [r'|] eqn:E.
  - f_equal. eapply (Hdet a fmt); [by left | done | done].
  - apply elem_of_cons in Hin as [->|Hin].
    + rewrite <- StrFacts.append_assoc, StrFacts.strip_prefix_app in E. discriminate.
    + apply IH; [done |]. intros a' b r r' Ha Hb. apply Hdet; by right.
Qed.

Lemma match_alternation_sound (alts : list string) (suffix s rest : string) :
  match_alternation alts suffix s = Some rest ->
  exists fmt, fmt ∈ alts /\ s = fmt +:+ suffix +:+ rest.
Proof.
  induction alts as [|a alts IH]; simpl; [discriminate |].
  destruct (Str.strip_prefix (a +:+ suffix) s) as [r|] eqn:E.
  - intros [= ->]. apply StrFacts.strip_prefix_spec in E.
    exists a. split; [by left |]. by rewrite <- StrFacts.append_assoc.
  - intros (fmt & Hin & ->)%IH. exists fmt. split; [by right | done].
Qed.

(** No recognised format followed by [;base64,] is a prefix of another
    one followed by [;base64,]: the alternation is unambiguous. *)
Lemma image_formats_unambiguous (a b r r' : string) :
  a ∈ image_formats -> b ∈ image_formats ->
  Str.strip_prefix (a +:+ ";base64,") (b +:+ ";base64," +:+ r) = Some r' -> r' = r.
Proof.
  unfold image_formats. intros Ha Hb.
  repeat (apply elem_of_cons in Ha as [->|Ha]);
    try (by apply elem_of_nil in Ha);
    repeat (apply elem_of_cons in Hb as [->|Hb]);
    try (by apply elem_of_nil in Hb);
    intros E; vm_compute in E; congruence.
Qed.

(** The header of a recognised format is removed, whatever follows. *)
Lemma cleanBase64_strips (fmt rest : string) :
  fmt ∈ image_formats -> cleanBase64 (image_header fmt +:+ rest) = rest.
Proof.
  intros Hin. unfold cleanBase64, image_header.
  rewrite StrFacts.append_assoc, StrFacts.strip_prefix_app.
  rewrite StrFacts.append_assoc.
  rewrite (match_alternation_hit _ _ _ _ Hin); [done |].
  apply image_formats_unambiguous.
Qed.

(** Anything else is sent as it is. *)
Lemma cleanBase64_other (s : string) :
  (forall fmt rest, fmt ∈ image_formats -> s <> image_header fmt +:+ rest) ->
  cleanBase64 s = s.
Proof.
  intros Hno. unfold cleanBase64.
  destruct (Str.strip_prefix "data:image/" s) as [r|] eqn:E; [|done].
  destruct (match_alternation image_formats ";base64," r) as [rest|] eqn:E'; [|done].
  apply StrFacts.strip_prefix_spec in E.
  apply match_alternation_sound in E' as (fmt & Hin & ->).
  exfalso. apply (Hno fmt rest Hin). subst s. unfold image_header.
  by rewrite !StrFacts.append_assoc.
Qed.

(** C8, as stated: every base64 data-URI header would be removed.  The
    header of a GIF is not: the payload is sent with its header. *)
Lemma cleanBase64_keeps_gif_header :
  cleanBase64 (data_uri_header "image/gif" +:+ "AAAA") = "data:image/gif;base64,AAAA" /\
  cleanBase64 (data_uri_header "image/gif" +:+ "AAAA") <> "AAAA".
Proof. split; [reflexivity | discriminate]. Qed.

(** C8, amended: normalisation removes a leading header
    [data:image/<fmt>;base64,] for [fmt] one of png, jpeg, jpg and webp,
    and leaves every other payload unchanged; in particular
    [data:image/png;base64,AAAA] becomes [AAAA]. *)
Theorem cleanBase64_strips_recognised_header (s : string) :
  ((exists fmt rest, fmt ∈ image_formats /\ s = image_header fmt +:+ rest /\
                     cleanBase64 s = rest) \/
   ((forall fmt rest, fmt ∈ image_formats -> s <> image_header fmt +:+ rest) /\
    cleanBase64 s = s)) /\
  cleanBase64 "data:image/png;base64,AAAA" = "AAAA".
Proof.
  split; [|reflexivity].
  destruct (Str.strip_prefix "data:image/" s) as [r|] eqn:E.
  - destruct (match_alternation image_formats ";base64," r) as [rest|] eqn:E'.
    + left. apply StrFacts.strip_prefix_spec in E.
      apply match_alternation_sound in E' as (fmt & Hin & ->).
      exists fmt, rest. split; [done |].
      assert (s = image_header fmt +:+ rest) as ->.
      { subst s. unfold image_header. by rewrite !StrFacts.append_assoc. }
      split; [done | by apply cleanBase64_strips].
    + right. assert (cleanBase64 s = s) as Hs by (unfold cleanBase64; by rewrite E, E').
      split; [|done]. intros fmt rest Hin ->. revert E'.
      unfold image_header in E.
      rewrite StrFacts.append_assoc, StrFacts.strip_prefix_app in E.
      injection E as <-. rewrite StrFacts.append_assoc.
      rewrite (match_alternation_hit _ _ _ _ Hin); [done |].
      apply image_formats_unambiguous.
  - right. assert (cleanBase64 s = s) as Hs by (unfold cleanBase64; by rewrite E).
    split; [|done]. intros fmt rest Hin ->.
    unfold image_header in E.
    rewrite StrFacts.append_assoc, StrFacts.strip_prefix_app in E. discriminate.
Qed.

(** ** Running computations *)

Ltac js_unfold :=
  unfold mbind, Js_bind, mret, Js_ret, throw, try_catch,
    localStorage_getItem, console_error_log, models_generateContent in *.

Section Credential.
Context `{Platform}.

Lemma getAiClient_run (w : World) : getAiClient w = (resolve_credential w, w).
Proof.
  unfold getAiClient, resolve_credential, missing_credential. js_unfold.
  destruct (localStorage w !! "gemini_api_key") as [s|]; simpl.
  - destruct (Str.truthy s) eqn:Hs; simpl; [by rewrite Hs |].
    destruct API_KEY as [k|]; simpl; [|done]. by destruct (Str.truthy k).
  - destruct API_KEY as [k|]; simpl; [|done]. by destruct (Str.truthy k).
Qed.

(** C6: every call of [getAiClient] resolves the credential from the
    current state: the registered key when it is non-empty, otherwise the
    environment's default; it throws the missing-credential error exactly
    when neither is non-empty; it leaves the world as it found it, and a
    key registered after one call is the one the next call returns. *)
Theorem getAiClient_resolves_afresh (w : World) :
  let stored := non_empty (localStorage w !! "gemini_api_key") in
  fst (getAiClient w) =
    match stored, non_empty API_KEY with
    | Some key, _ => Return {| apiKey := key |}
    | None, Some key => Return {| apiKey := key |}
    | None, None => Throw missing_credential
    end /\
  ((exists e, fst (getAiClient w) = Throw e) <->
   stored = None /\ non_empty API_KEY = None) /\
  snd (getAiClient w) = w /\
  (forall key : string,
     key <> "" ->
     fst (getAiClient
            (localStorage_setItem "gemini_api_key" key (snd (getAiClient w)))) =
     Return {| apiKey := key |}).
Proof.
  cbv zeta. rewrite !getAiClient_run. cbn [fst snd].
  split; [done |]. split; [|split; [done |]].
  - unfold resolve_credential.
    destruct (non_empty (localStorage w !! _)), (non_empty API_KEY);
      split; try (intros [e [=]]); try (intros [[=] [=]]); try done; eauto.
  - intros key Hkey. rewrite getAiClient_run. cbn [fst].
    unfold resolve_credential, localStorage_setItem. cbn [localStorage].
    rewrite lookup_insert_eq. destruct key; [done | reflexivity].
Qed.

End Credential.

(** ** The error handler *)

Lemma handleGeminiError_run (error : JsError) (modelType : option ModelType) (w : World) :
  handleGeminiError error modelType w =
    (Throw (if permission_indicator (error_msg error) then permission_error modelType
            else if Str.includes (error_msg error) "429" then Error quota_exceeded
            else error),
     {| localStorage := localStorage w;
        sent := sent w;
        console_error := console_error w ++ [error] |}).
Proof.
  unfold handleGeminiError, permission_indicator, permission_error. js_unfold.
  destruct (Str.includes (error_msg error) "403" ||
            Str.includes (error_msg error) "PERMISSION_DENIED").
  - by destruct modelType as [[]|].
  - by destruct (Str.includes (error_msg error) "429").
Qed.

(** C7, as stated: a message with a 429 indicator would always give the
    rate-limited error.  A message that also carries 403 does not. *)
Lemma handleGeminiError_429_with_403 :
  Str.includes (error_msg (Error "429 after 403")) "429" = true /\
  fst (handleGeminiError (Error "429 after 403") None empty_world) <>
    Throw (Error quota_exceeded) /\
  fst (handleGeminiError (Error "429 after 403") None empty_world) =
    Throw (Error access_denied).
Proof. split; [reflexivity |]. split; [discriminate | reflexivity]. Qed.

(** C7, amended: the handler never returns normally; a message with a
    429 indicator and no 403 or permission-denied indicator gives the
    rate-limited error; a message with a 403 or permission-denied
    indicator gives the billing-required or the access-denied error; any
    other error is thrown again as it is. *)
Theorem handleGeminiError_always_throws
    (error : JsError) (modelType : option ModelType) (w : World) :
  (exists thrown, fst (handleGeminiError error modelType w) = Throw thrown) /\
  (permission_indicator (error_msg error) = false ->
   Str.includes (error_msg error) "429" = true ->
   fst (handleGeminiError error modelType w) = Throw (Error quota_exceeded)) /\
  (permission_indicator (error_msg error) = true ->
   fst (handleGeminiError error modelType w) =
     Throw (Error (match modelType with
                   | Some pro => billing_required
                   | _ => access_denied
                   end))) /\
  (permission_indicator (error_msg error) = false ->
   Str.includes (error_msg error) "429" = false ->
   fst (handleGeminiError error modelType w) = Throw error).
Proof.
  rewrite handleGeminiError_run. cbn [fst].
  split; [eauto |]. repeat split.
  - by intros -> ->.
  - intros ->. unfold permission_error. by destruct modelType as [[]|].
  - by intros -> ->.
Qed.

(** C10: when the message carries both a 403 or permission-denied
    indicator and 429, the permission check, made first, decides: the
    handler throws the permission error of the tier and never the
    rate-limited one. *)
Theorem handleGeminiError_403_before_429
    (error : JsError) (modelType : option ModelType) (w : World) :
  Str.includes (error_msg error) "403" = true \/
  Str.includes (error_msg error) "PERMISSION_DENIED" = true ->
  Str.includes (error_msg error) "429" = true ->
  fst (handleGeminiError error modelType w) = Throw (permission_error modelType) /\
  fst (handleGeminiError error modelType w) <> Throw (Error quota_exceeded).
Proof.
  intros Hperm _. rewrite handleGeminiError_run. cbn [fst].
  assert (permission_indicator (error_msg error) = true) as ->.
  { unfold permission_indicator. destruct Hperm as [-> | ->]; [done |].
    by rewrite orb_true_r. }
  split; [done |]. unfold permission_error.
  destruct modelType as [[]|]; discriminate.
Qed.

(** ** The single-image helper *)

Lemma truthy_spec (s : string) : Str.truthy s = true <-> s <> "".
Proof. destruct s; simpl; split; congruence. Qed.

Lemma inline_payload_spec (part : Part) (d : string) :
  inline_payload part = Some d <-> carries_image part d.
Proof.
  unfold inline_payload, carries_image. split.
  - destruct (inlineData part) as [blob|]; [|discriminate].
    destruct (data blob) as [d'|] eqn:Hd; [|discriminate].
    destruct (Str.truthy d') eqn:Ht; [|discriminate].
    intros [= ->]. exists blob. by rewrite <- truthy_spec.
  - intros (blob & -> & -> & Hne%truthy_spec). by rewrite Hne.
Qed.

Lemma inline_payload_none (part : Part) :
  inline_payload part = None <-> no_image part.
Proof.
  unfold no_image. split.
  - intros Hn d Hd%inline_payload_spec. congruence.
  - intros Hn. destruct (inline_payload part) as [d|] eqn:E; [|done].
    apply inline_payload_spec in E. by destruct (Hn d).
Qed.

(** The scan stops at the first part with a payload. *)
Lemma scan_parts_first (before after : list Part) (part : Part) (d : string) :
  Forall no_image before -> carries_image part d ->
  scan_parts (before ++ part :: after) = Some ("data:image/png;base64," +:+ d).
Proof.
  intros Hb Hp. induction Hb as [|q before Hq _ IH]; simpl.
  - apply inline_payload_spec in Hp. by rewrite Hp.
  - apply inline_payload_none in Hq. by rewrite Hq.
Qed.

Lemma scan_parts_none (ps : list Part) :
  Forall no_image ps -> scan_parts ps = None.
Proof.
  induction 1 as [|q ps Hq _ IH]; simpl; [done |].
  apply inline_payload_none in Hq. by rewrite Hq.
Qed.

(** Either some part is the first with a payload, or none has one. *)
Lemma scan_parts_cases (ps : list Part) :
  (exists before part after d,
     ps = before ++ part :: after /\ Forall no_image before /\ carries_image part d) \/
  Forall no_image ps.
Proof.
  induction ps as [|q ps IH]; [by right |].
  destruct (inline_payload q) as [d|] eqn:E.
  - left. exists [], q, ps, d. split; [done |]. split; [done |].
    by apply inline_payload_spec.
  - apply inline_payload_none in E.
    destruct IH as [(before & part & after & d & -> & Hb & Hp) | Hall].
    + left. exists (q :: before), part, after, d. split; [done |].
      split; [by constructor | done].
    + right. by constructor.
Qed.

(** A URL the scan returns is never the empty string. *)
Lemma scan_parts_truthy (ps : list Part) (u : string) :
  scan_parts ps = Some u -> Str.truthy u = true.
Proof.
  induction ps as [|q ps IH]; simpl; [discriminate |].
  destruct (inline_payload q); [by intros [= <-] | done].
Qed.

Lemma generateSingleImage_response_run
    (response : GenerateContentResponse) (w : World) :
  generateSingleImage_response response w = (response_outcome response, w).
Proof.
  unfold response_outcome, generateSingleImage_response. js_unfold.
  destruct (candidates response) as [[|c rest]|]; try done.
  by destruct (scan_parts (parts (content c))).
Qed.

Section SingleImage.
Context `{Platform}.

(** The helper resolves the credential, sends one request and ends as
    the response decides; without a credential nothing is sent. *)
Lemma generateSingleImage_run
    (referenceImageBase64 prompt : string) (modelType : ModelType)
    (aspectRatio : AspectRatio) (w : World) :
  generateSingleImage referenceImageBase64 prompt modelType aspectRatio w =
    match resolve_credential w with
    | Return ai =>
        let params :=
          single_image_request ai referenceImageBase64 prompt modelType aspectRatio in
        (match generateContent (sent w) params with
         | Return response => response_outcome response
         | Throw e => Throw e
         end,
         after_request params w)
    | Throw e => (Throw e, w)
    end.
Proof.
  unfold generateSingleImage. unfold mbind at 1, Js_bind at 1.
  rewrite getAiClient_run. destruct (resolve_credential w) as [ai|e]; [|done].
  unfold try_catch, mbind, Js_bind, models_generateContent, throw.
  fold (single_image_request ai referenceImageBase64 prompt modelType aspectRatio).
  cbv zeta. unfold after_request.
  destruct (generateContent (sent w) _) as [response|e]; [|done].
  rewrite generateSingleImage_response_run.
  by destruct (response_outcome response).
Qed.

(** A URL the helper returns is never the empty string. *)
Lemma generateSingleImage_url_truthy
    (referenceImageBase64 prompt : string) (modelType : ModelType)
    (aspectRatio : AspectRatio) (w : World) (u : string) :
  fst (generateSingleImage referenceImageBase64 prompt modelType aspectRatio w) = Return u ->
  Str.truthy u = true.
Proof.
  rewrite generateSingleImage_run.
  destruct (resolve_credential w) as [ai|e]; [|discriminate]. cbn [fst].
  destruct (generateContent (sent w) _) as [response|e]; [|discriminate].
  unfold response_outcome, generateSingleImage_response. js_unfold.
  destruct (candidates response) as [[|c rest]|]; try discriminate.
  destruct (scan_parts (parts (content c))) as [u'|] eqn:E; [|discriminate].
  cbn [fst]. intros [= <-]. by eapply scan_parts_truthy.
Qed.

(** C5: when the service answers with a non-empty list of candidates,
    only the parts of the first candidate are scanned, in order: the
    helper returns the payload of the first part that carries one, as a
    data-URI with the media type fixed to PNG, whatever the further
    candidates are; when no part of the first candidate carries a
    payload the helper fails, even if a later candidate has an image. *)
Theorem generateSingleImage_first_candidate_only
    (referenceImageBase64 prompt : string) (modelType : ModelType)
    (aspectRatio : AspectRatio) (w : World)
    (ai : GoogleGenAI) (first : Candidate) (others : list Candidate) :
  fst (getAiClient w) = Return ai ->
  generateContent (sent w)
    (single_image_request ai referenceImageBase64 prompt modelType aspectRatio) =
    Return {| candidates := Some (first :: others) |} ->
  (forall before part after d,
     parts (content first) = before ++ part :: after ->
     Forall no_image before -> carries_image part d ->
     fst (generateSingleImage referenceImageBase64 prompt modelType aspectRatio w) =
       Return ("data:image/png;base64," +:+ d)) /\
  (Forall no_image (parts (content first)) ->
   fst (generateSingleImage referenceImageBase64 prompt modelType aspectRatio w) =
     Throw (Error "No image generated")).
Proof.
  rewrite getAiClient_run. cbn [fst]. intros Hai Hresp.
  rewrite generateSingleImage_run, Hai. cbv zeta. rewrite Hresp. cbn [fst].
  unfold response_outcome, generateSingleImage_response. cbn [candidates].
  split.
  - intros before part after d -> Hb Hp.
    by rewrite (scan_parts_first _ _ _ _ Hb Hp).
  - intros Hnone. by rewrite (scan_parts_none _ Hnone).
Qed.

End SingleImage.

(** ** The orchestrator *)

Lemma find_first {A : Type} (f : A -> bool) (before after : list A) (x : A) :
  Forall (fun y => f y = false) before -> f x = true ->
  List.find f (before ++ x :: after) = Some x.
Proof.
  intros Hb Hx. induction Hb as [|y before Hy _ IH]; simpl.
  - by rewrite Hx.
  - by rewrite Hy.
Qed.

Lemma find_none {A : Type} (f : A -> bool) (l : list A) :
  Forall (fun y => f y = false) l -> List.find f l = None.
Proof. induction 1 as [|y l Hy _ IH]; simpl; [done | by rewrite Hy]. Qed.

Lemma message_includes_truthy (e : JsError) (m needle : string) :
  message e = Some m -> Str.truthy needle = true ->
  Str.includes m needle = true -> error_msg e = m.
Proof.
  intros Hm Hn Hi. unfold error_msg. rewrite Hm.
  by rewrite (StrFacts.includes_truthy _ _ Hn Hi).
Qed.

(** A permission failure is one for the handler as well: the message it
    reads is [error.message], which is not empty. *)
Lemma permission_denied_indicator (e : JsError) :
  permission_denied e -> permission_indicator (error_msg e) = true.
Proof.
  intros (m & Hm & [Hi|Hi]); unfold permission_indicator.
  - rewrite (message_includes_truthy e m "403" Hm eq_refl Hi). by rewrite Hi.
  - rewrite (message_includes_truthy e m "PERMISSION_DENIED" Hm eq_refl Hi).
    rewrite Hi. apply orb_true_r.
Qed.

Lemma is_fatal_frame (outcome : string * Completion string) :
  is_fatal (frame_of outcome) = true <-> fatal_outcome outcome.
Proof.
  destruct outcome as [p [u|e]]; unfold is_fatal, fatal_outcome; simpl.
  - split; [discriminate | by intros (e & [=] & _)].
  - unfold message_includes, permission_denied.
    destruct (message e) as [m|] eqn:Hm; simpl.
    + rewrite orb_true_iff. split.
      * intros Hi. exists e. split; [done |]. by exists m.
      * intros (e' & [= <-] & m' & Hm' & Hi). congruence.
    + split; [discriminate |]. intros (e' & [= <-] & m' & Hm' & _). congruence.
Qed.

Lemma is_fatal_frame_false (outcome : string * Completion string) :
  ~ fatal_outcome outcome -> is_fatal (frame_of outcome) = false.
Proof.
  intros Hn. destruct (is_fatal (frame_of outcome)) eqn:E; [|done].
  by apply is_fatal_frame in E.
Qed.

(** The filter keeps the successful frames whose URL is not empty. *)
Lemma delivered_successes (outcomes : list (string * Completion string)) :
  Forall (fun o => forall u, o.2 = Return u -> Str.truthy u = true) outcomes ->
  List.map (fun r => {| image_url := url r; image_prompt := prompt r |})
    (List.filter is_delivered (List.map frame_of outcomes)) =
  successes outcomes.
Proof.
  induction 1 as [|[p [u|e]] outcomes Hu _ IH]; simpl; [done | |done].
  unfold is_delivered at 1. simpl. rewrite (Hu u eq_refl). simpl. by rewrite IH.
Qed.

(** When every unit succeeds, the images are the units', one for one. *)
Lemma successes_all (outcomes : list (string * Completion string)) :
  Forall succeeded outcomes -> Forall2 image_of_unit (successes outcomes) outcomes.
Proof.
  induction 1 as [|[p c] outcomes [u Hu] _ IH]; simpl; [constructor |].
  simpl in Hu. subst c. by constructor.
Qed.

Lemma image_of_unit_prompts
    (images : list GeneratedImage) (outcomes : list (string * Completion string)) :
  Forall2 image_of_unit images outcomes ->
  List.map image_prompt images = List.map fst outcomes.
Proof.
  induction 1 as [|img o imgs os Hio _ IH]; simpl; [done |].
  rewrite IH. unfold image_of_unit in Hio. by subst o.
Qed.

Section Batch.
Context `{Platform}.
Variables (referenceImageBase64 : string) (modelType : ModelType)
  (aspectRatio : AspectRatio).

#[local] Abbreviation outcomes :=
  (unit_outcomes referenceImageBase64 modelType aspectRatio).
#[local] Abbreviation settled :=
  (after_units referenceImageBase64 modelType aspectRatio).
#[local] Abbreviation batch := (generateStoryBatch referenceImageBase64).

Lemma generateFrame_run (p : string) (w : World) :
  generateFrame referenceImageBase64 modelType aspectRatio p w =
    let r := generateSingleImage referenceImageBase64 p modelType aspectRatio w in
    (Return (frame_of (p, r.1)), r.2).
Proof.
  unfold generateFrame, try_catch, mbind, Js_bind, mret, Js_ret. cbv zeta.
  by destruct (generateSingleImage _ _ _ _ w) as [[u|e] w'].
Qed.

(** The mapped promises never reject: the results are the frames of the
    units, in the order of the prompts. *)
Lemma Promise_all_map_frames (prompts : list string) (w : World) :
  Promise_all_map (generateFrame referenceImageBase64 modelType aspectRatio) prompts w =
    (Return (List.map frame_of (outcomes prompts w)), settled prompts w).
Proof.
  revert w. induction prompts as [|p prompts IH]; intros w; [done |].
  cbn [Promise_all_map unit_outcomes after_units List.map].
  unfold mbind at 1, Js_bind at 1. rewrite generateFrame_run. cbv zeta.
  unfold mbind, Js_bind. by rewrite IH.
Qed.

Lemma outcomes_prompts (prompts : list string) (w : World) :
  List.map fst (outcomes prompts w) = prompts.
Proof.
  revert w. induction prompts as [|p prompts IH]; intros w; simpl; [done |].
  by rewrite IH.
Qed.

Lemma outcomes_truthy (prompts : list string) (w : World) :
  Forall (fun o => forall u, o.2 = Return u -> Str.truthy u = true) (outcomes prompts w).
Proof.
  revert w. induction prompts as [|p prompts IH]; intros w; simpl; [constructor |].
  constructor; [|apply IH]. simpl. intros u Hu.
  by eapply generateSingleImage_url_truthy.
Qed.

(** The units print nothing through [console.error] and leave
    [localStorage] alone. *)
Lemma settled_console (prompts : list string) (w : World) :
  console_error (settled prompts w) = console_error w /\
  localStorage (settled prompts w) = localStorage w.
Proof.
  revert w. induction prompts as [|p prompts IH]; intros w; simpl; [done |].
  destruct (IH (generateSingleImage referenceImageBase64 p modelType aspectRatio w).2)
    as [-> ->].
  rewrite generateSingleImage_run. by destruct (resolve_credential w).
Qed.

(** C9: with no prompts the batch resolves to the empty list, throws
    nothing and sends no request: the world is the one it started in. *)
Theorem generateStoryBatch_empty (w : World) :
  batch [] modelType aspectRatio w = (Return [], w) /\
  sent (batch [] modelType aspectRatio w).2 = sent w.
Proof. split; reflexivity. Qed.

(** C3: when no unit ends in a 403 or permission-denied failure the
    batch resolves, without throwing, to the images of the successful
    units paired with their prompts, in the order of the prompts; when
    every unit succeeds that list has the length of the prompts, its
    prompts are the input prompts in order, and each image is the one
    the unit of its prompt returned. *)
Theorem generateStoryBatch_delivers (prompts : list string) (w : World) :
  Forall (fun o => ~ fatal_outcome o) (outcomes prompts w) ->
  (batch prompts modelType aspectRatio w).1 = Return (successes (outcomes prompts w)) /\
  (Forall succeeded (outcomes prompts w) ->
   exists images,
     (batch prompts modelType aspectRatio w).1 = Return images /\
     length images = length prompts /\
     List.map image_prompt images = prompts /\
     Forall2 image_of_unit images (outcomes prompts w)).
Proof.
  intros Hnf.
  assert ((batch prompts modelType aspectRatio w).1 =
          Return (successes (outcomes prompts w))) as Hres.
  { unfold generateStoryBatch. unfold mbind at 1, Js_bind at 1.
    rewrite Promise_all_map_frames. unfold mbind at 1, Js_bind at 1.
    rewrite find_none.
    - unfold mret, Js_ret. cbn [fst]. f_equal.
      apply delivered_successes, outcomes_truthy.
    - apply Forall_map. eapply Forall_impl; [exact Hnf |].
      intros o Ho. by apply is_fatal_frame_false. }
  split; [done |]. intros Hall.
  exists (successes (outcomes prompts w)). split; [done |].
  pose proof (successes_all _ Hall) as Hpair.
  assert (List.map image_prompt (successes (outcomes prompts w)) = prompts) as Hp.
  { rewrite <- (outcomes_prompts prompts w) at 2.
    by apply image_of_unit_prompts. }
  split; [|done].
  rewrite <- Hp at 2. by rewrite length_map.
Qed.

(** C1: when some unit ends in a failure whose message contains 403 or
    PERMISSION_DENIED, the batch throws the billing-required error for
    the pro tier and the access-denied error otherwise, whatever the
    other units did; and the failure handed to the handler, which
    [console.error] prints, is the first such failure in the order of
    the prompts. *)
Theorem generateStoryBatch_fatal (prompts : list string) (w : World) :
  Exists fatal_outcome (outcomes prompts w) ->
  (batch prompts modelType aspectRatio w).1 =
    Throw (Error (match modelType with
                  | pro => billing_required
                  | standard => access_denied
                  end)) /\
  (forall before p e after,
     outcomes prompts w = before ++ (p, Throw e) :: after ->
     Forall (fun o => ~ fatal_outcome o) before ->
     permission_denied e ->
     console_error (batch prompts modelType aspectRatio w).2 =
       console_error w ++ [e]).
Proof.
  intros Hex.
  assert (forall before p e after,
     outcomes prompts w = before ++ (p, Throw e) :: after ->
     Forall (fun o => ~ fatal_outcome o) before ->
     permission_denied e ->
     batch prompts modelType aspectRatio w =
       (Throw (permission_error (Some modelType)),
        {| localStorage := localStorage w;
           sent := sent (settled prompts w);
           console_error := console_error w ++ [e] |})) as Hrun.
  { intros before p e after Hsplit Hb He.
    unfold generateStoryBatch. unfold mbind at 1, Js_bind at 1.
    rewrite Promise_all_map_frames, Hsplit. unfold mbind at 1, Js_bind at 1.
    rewrite List.map_app. cbn [List.map].
    rewrite (find_first is_fatal _ _ (frame_of (p, Throw e))).
    - cbn [frame_of error]. rewrite handleGeminiError_run.
      rewrite (permission_denied_indicator e He).
      by destruct (settled_console prompts w) as [-> ->].
    - apply Forall_map. eapply Forall_impl; [exact Hb |].
      intros o Ho. by apply is_fatal_frame_false.
    - apply is_fatal_frame. by exists e. }
  assert (exists before p e after,
     outcomes prompts w = before ++ (p, Throw e) :: after /\
     Forall (fun o => ~ fatal_outcome o) before /\
     permission_denied e) as (before & p & e & after & Hsplit & Hb & He).
  { clear Hrun. induction Hex as [[p c] os (e & Hc & He) | o os _ IH].
    - simpl in Hc. subst c. by exists [], p, e, os.
    - destruct (is_fatal (frame_of o)) eqn:E.
      + apply is_fatal_frame in E as Hf. destruct o as [p c].
        destruct Hf as (e & Hc & He). simpl in Hc. subst c.
        by exists [], p, e, os.
      + destruct IH as (before & p & e & after & -> & Hb & He).
        exists (o :: before), p, e, after. split; [done |]. split; [|done].
        constructor; [|done]. intros Hf%is_fatal_frame. congruence. }
  split.
  - rewrite (Hrun before p e after Hsplit Hb He). cbn [fst].
    unfold permission_error. by destruct modelType.
  - intros before' p' e' after' Hsplit' Hb' He'.
    by rewrite (Hrun before' p' e' after' Hsplit' Hb' He').
Qed.

End Batch.

(** ** Studio mode *)

Section Studio.
Context `{Platform}.

Lemma cameraDescription_phrases (settings : CameraSettings) :
  cameraDescription settings =
    rotation_phrase settings +:+ vertical_phrase settings +:+
    zoom_phrase settings +:+ lens_phrase settings.
Proof.
  unfold cameraDescription. cbv zeta.
  by rewrite StrFacts.append_nil_l, !StrFacts.append_assoc.
Qed.

(** C4: at the thresholds the camera description takes the middle
    phrase of each rule: a rotation of -10 or of 10 gives the
    front-facing phrase (a profile phrase needs a rotation strictly
    below -10 or strictly above 10), a vertical of -0.3 or of 0.3 the
    eye-level phrase, a zoom of 7 the medium close-up phrase and a zoom
    of 3 the full-body phrase; the other three phrases are those of the
    other settings. *)
Theorem cameraDescription_boundaries (settings : CameraSettings) :
  (rotation settings = (-10)%float \/ rotation settings = 10%float ->
   cameraDescription settings =
     "Front facing view, " +:+ vertical_phrase settings +:+
     zoom_phrase settings +:+ lens_phrase settings) /\
  (rotation_phrase settings <> "Front facing view, " <->
   PrimFloat.ltb (rotation settings) (-10)%float = true \/
   PrimFloat.ltb 10%float (rotation settings) = true) /\
  (vertical settings = (-0.3)%float \/ vertical settings = 0.3%float ->
   cameraDescription settings =
     rotation_phrase settings +:+ "Eye-level shot, " +:+
     zoom_phrase settings +:+ lens_phrase settings) /\
  (zoom settings = 7%float ->
   cameraDescription settings =
     rotation_phrase settings +:+ vertical_phrase settings +:+
     "Medium close-up (head and shoulders), " +:+ lens_phrase settings) /\
  (zoom settings = 3%float ->
   cameraDescription settings =
     rotation_phrase settings +:+ vertical_phrase settings +:+
     "Full body shot, " +:+ lens_phrase settings).
Proof.
  rewrite cameraDescription_phrases. repeat split.
  - unfold rotation_phrase. by intros [-> | ->].
  - unfold rotation_phrase.
    destruct (PrimFloat.ltb (rotation settings) (-10)); [auto |].
    destruct (PrimFloat.ltb 10 (rotation settings)); [auto |]. done.
  - unfold rotation_phrase. intros [-> | ->]; [discriminate |].
    destruct (PrimFloat.ltb (rotation settings) (-10)); discriminate.
  - unfold vertical_phrase. by intros [-> | ->].
  - unfold zoom_phrase. by intros ->.
  - unfold zoom_phrase. by intros ->.
Qed.

End Studio.

(** ** Refusals *)

Section Refusal.
Context `{Platform}.

(** C2: on a response whose first candidate has no image part but a
    text part, the helper throws the plain no-image error: the text is
    not carried, where the sibling [generateReferenceImage] reports the
    refusal with its text on the same response. *)
Theorem generateSingleImage_refusal_unreported
    (referenceImageBase64 prompt : string) (modelType : ModelType)
    (aspectRatio : AspectRatio) (w : World)
    (ai : GoogleGenAI) (first : Candidate) (others : list Candidate) (t : string) :
  fst (getAiClient w) = Return ai ->
  generateContent (sent w)
    (single_image_request ai referenceImageBase64 prompt modelType aspectRatio) =
    Return {| candidates := Some (first :: others) |} ->
  Forall no_image (parts (content first)) ->
  find_text (parts (content first)) = Some t ->
  fst (generateSingleImage referenceImageBase64 prompt modelType aspectRatio w) =
    Throw (Error "No image generated") /\
  fst (generateSingleImage referenceImageBase64 prompt modelType aspectRatio w) <>
    Throw (Error ("Model refused: " +:+ t)) /\
  fst (generateReferenceImage_response {| candidates := Some (first :: others) |} w) =
    Throw (Error ("Model refused: " +:+ t)).
Proof.
  rewrite getAiClient_run. cbn [fst]. intros Hai Hresp Hnone Ht.
  rewrite generateSingleImage_run, Hai. cbv zeta. rewrite Hresp. cbn [fst].
  unfold response_outcome, generateSingleImage_response,
    generateReferenceImage_response. cbn [candidates].
  rewrite (scan_parts_none _ Hnone), Ht. cbn.
  split; [done |]. split; [|done]. intros [=].
Qed.

(** Without candidates, or with a first candidate without parts, the
    helper throws the no-image error. *)
Lemma generateSingleImage_nothing_returned
    (referenceImageBase64 prompt : string) (modelType : ModelType)
    (aspectRatio : AspectRatio) (w : World)
    (ai : GoogleGenAI) (response : GenerateContentResponse) :
  fst (getAiClient w) = Return ai ->
  generateContent (sent w)
    (single_image_request ai referenceImageBase64 prompt modelType aspectRatio) =
    Return response ->
  candidates response = None \/ candidates response = Some [] \/
  (exists first others,
     candidates response = Some (first :: others) /\ parts (content first) = []) ->
  fst (generateSingleImage referenceImageBase64 prompt modelType aspectRatio w) =
    Throw (Error "No image generated").
Proof.
  rewrite getAiClient_run. cbn [fst]. intros Hai Hresp Hcases.
  rewrite generateSingleImage_run, Hai. cbv zeta. rewrite Hresp. cbn [fst].
  unfold response_outcome, generateSingleImage_response.
  destruct Hcases as [-> | [-> | (first & others & -> & Hparts)]]; try done.
  by rewrite Hparts.
Qed.

End Refusal.

(** ** Concrete runs *)

Lemma some_fatal_check (outcomes : list (string * Completion string)) :
  existsb (fun o => is_fatal (frame_of o)) outcomes = true ->
  Exists fatal_outcome outcomes.
Proof.
  induction outcomes as [|o os IH]; simpl; [discriminate |].
  destruct (is_fatal (frame_of o)) eqn:E; simpl.
  - intros _. left. by apply is_fatal_frame.
  - intros Hos. right. by apply IH.
Qed.

Lemma no_fatal_check (outcomes : list (string * Completion string)) :
  existsb (fun o => is_fatal (frame_of o)) outcomes = false ->
  Forall (fun o => ~ fatal_outcome o) outcomes.
Proof.
  induction outcomes as [|o os IH]; simpl; [constructor |].
  intros [Ho Hos]%orb_false_iff. constructor; [|by apply IH].
  intros Hf%is_fatal_frame. congruence.
Qed.

(** The scenario of the specification: only the second candidate has
    an image part; the helper does not look at it. *)
Example second_candidate_not_scanned :
  let answer :=
    {| candidates := Some [candidate_of [text_part "no"]; candidate_of [image_part "AAAA"]] |} in
  generateSingleImage (H := scripted [Return answer]) "ref" "a" standard r1_1 empty_world =
    (Throw (Error "No image generated"),
     after_request
       (single_image_request {| apiKey := "env-key" |} "ref" "a" standard r1_1)
       empty_world).
Proof. vm_compute. reflexivity. Qed.

(** A registered key wins over the environment's. *)
Example registered_key_first :
  fst (getAiClient (H := scripted [])
         (localStorage_setItem "gemini_api_key" "user-key" empty_world)) =
    Return {| apiKey := "user-key" |}.
Proof. vm_compute. reflexivity. Qed.

(** A batch of three on the pro tier: one image, then a 403, then a
    permission failure.  The batch throws the billing-required error and
    the handler was given the 403, the first of the two. *)
Lemma generateStoryBatch_fatal_witness :
  let answers :=
    [Return (response_of [image_part "AAAA"]);
     Throw (Error "403 Forbidden");
     Throw (Error "PERMISSION_DENIED: enable billing")] in
  Exists fatal_outcome
    (unit_outcomes (H := scripted answers) "ref" pro r1_1 ["a"; "b"; "c"] empty_world) /\
  (generateStoryBatch (H := scripted answers) "ref" ["a"; "b"; "c"] pro r1_1
     empty_world).1 = Throw (Error billing_required) /\
  console_error
    (generateStoryBatch (H := scripted answers) "ref" ["a"; "b"; "c"] pro r1_1
       empty_world).2 = [Error "403 Forbidden"].
Proof.
  intros answers.
  assert (Exists fatal_outcome
    (unit_outcomes (H := scripted answers) "ref" pro r1_1 ["a"; "b"; "c"] empty_world))
    as Hex by (apply some_fatal_check; vm_compute; reflexivity).
  destruct (generateStoryBatch_fatal (H := scripted answers)
              "ref" pro r1_1 ["a"; "b"; "c"] empty_world Hex) as [Hthrow Hfirst].
  split; [exact Hex |]. split; [exact Hthrow |].
  apply (Hfirst [("a", Return "data:image/png;base64,AAAA")] "b"
           (Error "403 Forbidden")
           [("c", Throw (Error "PERMISSION_DENIED: enable billing"))]).
  - vm_compute. reflexivity.
  - apply no_fatal_check. vm_compute. reflexivity.
  - exists "403 Forbidden". split; [reflexivity | left; vm_compute; reflexivity].
Defined.

(** A batch of three whose second unit is refused: the first and the
    third image come back, in that order, with their prompts. *)
Lemma generateStoryBatch_delivers_witness :
  let answers :=
    [Return (response_of [image_part "AAAA"]);
     Return (response_of [text_part "I cannot draw that."]);
     Return (response_of [text_part "Here it is"; image_part "BBBB"])] in
  Forall (fun o => ~ fatal_outcome o)
    (unit_outcomes (H := scripted answers) "ref" standard r1_1 ["a"; "b"; "c"]
       empty_world) /\
  (generateStoryBatch (H := scripted answers) "ref" ["a"; "b"; "c"] standard r1_1
     empty_world).1 =
    Return [{| image_url := "data:image/png;base64,AAAA"; image_prompt := "a" |};
            {| image_url := "data:image/png;base64,BBBB"; image_prompt := "c" |}].
Proof.
  intros answers.
  assert (Forall (fun o => ~ fatal_outcome o)
    (unit_outcomes (H := scripted answers) "ref" standard r1_1 ["a"; "b"; "c"]
       empty_world))
    as Hnf by (apply no_fatal_check; vm_compute; reflexivity).
  split; [exact Hnf |].
  exact (proj1 (generateStoryBatch_delivers (H := scripted answers)
                  "ref" standard r1_1 ["a"; "b"; "c"] empty_world Hnf)).
Defined.

(** Two candidates; the first has a text part and two image parts: the
    first image part of the first candidate is returned, as PNG. *)
Lemma generateSingleImage_first_candidate_only_witness :
  let first := candidate_of [text_part "Here it is"; image_part "AAAA"; image_part "BBBB"] in
  let others := [candidate_of [image_part "CCCC"]] in
  let answers := [Return {| candidates := Some (first :: others) |}] in
  fst (getAiClient (H := scripted answers) empty_world) = Return {| apiKey := "env-key" |} /\
  fst (generateSingleImage (H := scripted answers) "ref" "a" standard r1_1 empty_world) =
    Return "data:image/png;base64,AAAA".
Proof.
  intros first others answers.
  assert (fst (getAiClient (H := scripted answers) empty_world) =
          Return {| apiKey := "env-key" |}) as Hai by (vm_compute; reflexivity).
  split; [exact Hai |].
  apply (proj1 (generateSingleImage_first_candidate_only (H := scripted answers)
                  "ref" "a" standard r1_1 empty_world
                  {| apiKey := "env-key" |} first others Hai eq_refl)
           [text_part "Here it is"] (image_part "AAAA") [image_part "BBBB"] "AAAA").
  - reflexivity.
  - constructor; [|constructor]. intros d (blob & Hb & _). discriminate Hb.
  - exists {| mimeType := Some "image/webp"; data := Some "AAAA" |}.
    split; [reflexivity |]. split; [reflexivity | discriminate].
Defined.

(** A message with both indicators, on the pro tier. *)
Lemma handleGeminiError_403_before_429_witness :
  (Str.includes (error_msg (Error "429 after 403")) "403" = true \/
   Str.includes (error_msg (Error "429 after 403")) "PERMISSION_DENIED" = true) /\
  Str.includes (error_msg (Error "429 after 403")) "429" = true /\
  fst (handleGeminiError (Error "429 after 403") (Some pro) empty_world) =
    Throw (Error billing_required).
Proof.
  split; [left; reflexivity |]. split; [reflexivity |].
  exact (proj1 (handleGeminiError_403_before_429
                  (Error "429 after 403") (Some pro) empty_world
                  (or_introl eq_refl) eq_refl)).
Defined.

(** A response that only says why no image was made. *)
Lemma generateSingleImage_refusal_unreported_witness :
  let first := candidate_of [text_part "I cannot generate that image."] in
  let answers := [Return {| candidates := Some [first] |}] in
  fst (generateSingleImage (H := scripted answers) "ref" "a" standard r1_1 empty_world) =
    Throw (Error "No image generated") /\
  fst (generateReferenceImage_response {| candidates := Some [first] |} empty_world) =
    Throw (Error "Model refused: I cannot generate that image.").
Proof.
  intros first answers.
  destruct (generateSingleImage_refusal_unreported (H := scripted answers)
              "ref" "a" standard r1_1 empty_world
              {| apiKey := "env-key" |} first [] "I cannot generate that image.")
    as (Hthrown & _ & Hsibling).
  - vm_compute. reflexivity.
  - reflexivity.
  - constructor; [|constructor]. intros d (blob & Hb & _). discriminate Hb.
  - reflexivity.
  - split; [exact Hthrown | exact Hsibling].
Defined.

(** * Further properties of the module *)

(** ** The error handler *)

Lemma handleGeminiError_thrown
    (error : JsError) (modelType : option ModelType) (w : World) :
  fst (handleGeminiError error modelType w) = thrown_by_handler error modelType.
Proof. unfold thrown_by_handler. by rewrite !handleGeminiError_run. Qed.

(** The three messages of the handler are recognised by the handler. *)
Lemma handler_messages_indicators :
  permission_indicator (error_msg (Error billing_required)) = true /\
  permission_indicator (error_msg (Error access_denied)) = true /\
  permission_indicator (error_msg (Error quota_exceeded)) = false /\
  Str.includes (error_msg (Error quota_exceeded)) "429" = true.
Proof. repeat split; vm_compute; reflexivity. Qed.

(** X1: handing the handler what it threw changes nothing: for a given
    tier, the error thrown for an error is the error thrown for that
    thrown error. *)
Theorem handleGeminiError_idempotent
    (error : JsError) (modelType : option ModelType) (w w' : World) :
  exists thrown,
    fst (handleGeminiError error modelType w) = Throw thrown /\
    fst (handleGeminiError thrown modelType w') = Throw thrown.
Proof.
  destruct handler_messages_indicators as (Hb & Ha & Hq & Hq').
  rewrite handleGeminiError_run. cbn [fst].
  destruct (permission_indicator (error_msg error)) eqn:Hp.
  - exists (permission_error modelType). split; [done |].
    rewrite handleGeminiError_run. cbn [fst]. unfold permission_error.
    destruct modelType as [[]|]; by rewrite ?Ha, ?Hb.
  - destruct (Str.includes (error_msg error) "429") eqn:H429.
    + exists (Error quota_exceeded). split; [done |].
      rewrite handleGeminiError_run. cbn [fst]. by rewrite Hq, Hq'.
    + exists error. split; [done |].
      rewrite handleGeminiError_run. cbn [fst]. by rewrite Hp, H429.
Qed.

(** X2: the billing-required error is thrown on the pro tier only: on
    any other tier, and without a tier, the handler never throws it,
    not even when it is handed that very error. *)
Theorem handleGeminiError_billing_only_pro
    (error : JsError) (modelType : option ModelType) (w : World) :
  fst (handleGeminiError error modelType w) = Throw (Error billing_required) ->
  modelType = Some pro.
Proof.
  destruct handler_messages_indicators as (Hb & _).
  rewrite handleGeminiError_run. cbn [fst].
  destruct (permission_indicator (error_msg error)) eqn:Hp.
  - unfold permission_error. destruct modelType as [[]|]; [discriminate | done | discriminate].
  - destruct (Str.includes (error_msg error) "429"); [discriminate |].
    intros [= ->]. congruence.
Qed.

(** ** The single-image helper *)

Lemma response_outcome_returns (response : GenerateContentResponse) (u : string) :
  response_outcome response = Return u ->
  exists first others part d,
    response = {| candidates := Some (first :: others) |} /\
    part ∈ parts (content first) /\ carries_image part d /\
    u = "data:image/png;base64," +:+ d.
Proof.
  destruct response as [cs]. unfold response_outcome, generateSingleImage_response.
  cbn [candidates]. destruct cs as [[|first others]|]; try discriminate.
  destruct (scan_parts_cases (parts (content first)))
    as [(before & part & after & d & Hsplit & Hb & Hp) | Hnone].
  - rewrite Hsplit, (scan_parts_first _ _ _ _ Hb Hp). cbn. intros [= <-].
    exists first, others, part, d. split; [done |]. split; [|done].
    rewrite Hsplit. apply elem_of_app. right. by left.
  - by rewrite (scan_parts_none _ Hnone).
Qed.

Lemma png_data_uri_of_payload (part : Part) (d : string) :
  carries_image part d -> png_data_uri ("data:image/png;base64," +:+ d).
Proof. intros (blob & _ & _ & Hd). by exists d. Qed.

Lemma missing_credential_not_classified :
  permission_indicator (error_msg missing_credential) = false /\
  Str.includes (error_msg missing_credential) "429" = false /\
  is_fatal (frame_of ("", Throw missing_credential)) = false.
Proof. repeat split; vm_compute; reflexivity. Qed.

Section SingleImageFacts.
Context `{Platform}.
Variables (referenceImageBase64 prompt : string) (modelType : ModelType)
  (aspectRatio : AspectRatio).

#[local] Abbreviation single :=
  (generateSingleImage referenceImageBase64 prompt modelType aspectRatio).
#[local] Abbreviation request_of ai :=
  (single_image_request ai referenceImageBase64 prompt modelType aspectRatio).

(** The credential a world resolves to depends on its [localStorage]
    only, and a failed resolution is the missing-credential error. *)
Lemma resolve_credential_localStorage (w w' : World) :
  localStorage w' = localStorage w -> resolve_credential w' = resolve_credential w.
Proof. unfold resolve_credential. by intros ->. Qed.

Lemma resolve_credential_throws (w : World) (e : JsError) :
  resolve_credential w = Throw e -> e = missing_credential.
Proof.
  unfold resolve_credential.
  destruct (non_empty (localStorage w !! _)), (non_empty API_KEY); congruence.
Qed.

(** The helper leaves [localStorage] and the console alone. *)
Lemma generateSingleImage_keeps (w : World) :
  localStorage (single w).2 = localStorage w /\
  console_error (single w).2 = console_error w.
Proof. rewrite generateSingleImage_run. by destruct (resolve_credential w). Qed.

(** Without a credential the helper throws before it sends anything. *)
Lemma generateSingleImage_no_credential (w : World) (e : JsError) :
  resolve_credential w = Throw e -> single w = (Throw missing_credential, w).
Proof.
  intros He. rewrite generateSingleImage_run, He.
  by rewrite (resolve_credential_throws _ _ He).
Qed.

Lemma generateSingleImage_url_png (w : World) (u : string) :
  (single w).1 = Return u -> png_data_uri u.
Proof.
  rewrite generateSingleImage_run.
  destruct (resolve_credential w) as [ai|e]; [|discriminate]. cbn [fst].
  destruct (generateContent (sent w) (request_of ai)) as [response|e];
    [|discriminate].
  intros (first & others & part & d & _ & _ & Hp & ->)%response_outcome_returns.
  by eapply png_data_uri_of_payload.
Qed.

(** X3: a URL the helper returns is the PNG data-URI of the payload of
    a part of the first candidate of the answer to the one request it
    sent. *)
Theorem generateSingleImage_returns_payload (w : World) (u : string) :
  (single w).1 = Return u ->
  exists ai first others part d,
    (getAiClient w).1 = Return ai /\
    generateContent (sent w) (request_of ai) =
      Return {| candidates := Some (first :: others) |} /\
    part ∈ parts (content first) /\ carries_image part d /\
    u = "data:image/png;base64," +:+ d /\
    sent (single w).2 = sent w ++ [request_of ai].
Proof.
  rewrite getAiClient_run, generateSingleImage_run. cbn [fst].
  destruct (resolve_credential w) as [ai|e]; [|discriminate]. cbn [fst snd].
  destruct (generateContent (sent w) (request_of ai)) as [response|e] eqn:E;
    [|discriminate].
  intros (first & others & part & d & -> & Hin & Hp & ->)%response_outcome_returns.
  by exists ai, first, others, part, d.
Qed.

(** X4: the helper sends exactly one request when a credential
    resolves, whatever the answer, and none when no credential does; in
    that case it throws the missing-credential error. *)
Theorem generateSingleImage_one_request (w : World) :
  (forall ai, (getAiClient w).1 = Return ai ->
     sent (single w).2 = sent w ++ [request_of ai]) /\
  (forall e, (getAiClient w).1 = Throw e ->
     single w = (Throw missing_credential, w)).
Proof.
  rewrite getAiClient_run, generateSingleImage_run. cbn [fst].
  split.
  - by intros ai ->.
  - intros e He. rewrite He. by rewrite (resolve_credential_throws _ _ He).
Qed.

End SingleImageFacts.

(** ** Studio mode *)

Section StudioFacts.
Context `{Platform}.
Variables (referenceImageBase64 : string) (settings : CameraSettings)
  (persona : Persona) (modelType : ModelType) (aspectRatio : AspectRatio).

#[local] Abbreviation studio :=
  (generateStudioImage referenceImageBase64 settings persona modelType aspectRatio).
#[local] Abbreviation studio_unit :=
  (generateSingleImage referenceImageBase64 (studio_prompt settings persona)
     modelType aspectRatio).

Lemma generateStudioImage_run (w : World) :
  studio w =
    match (studio_unit w).1 with
    | Return u =>
        (Return {| image_url := u; image_prompt := studio_prompt settings persona |},
         (studio_unit w).2)
    | Throw e =>
        (match thrown_by_handler e (Some modelType) with
         | Return _ => Return {| image_url := ""; image_prompt := "" |}
         | Throw thrown => Throw thrown
         end,
         {| localStorage := localStorage (studio_unit w).2;
            sent := sent (studio_unit w).2;
            console_error := console_error (studio_unit w).2 ++ [e] |})
    end.
Proof.
  unfold generateStudioImage, try_catch. cbv zeta.
  unfold mbind at 1, Js_bind at 1, mret, Js_ret.
  destruct (studio_unit w) as [[u|e] w'] eqn:E; cbn [fst snd]; [done |].
  unfold mbind, Js_bind, thrown_by_handler. rewrite !handleGeminiError_run.
  cbn [fst]. done.
Qed.

(** X5: what studio mode returns is never the placeholder of its
    [catch] clause: the URL is the PNG data-URI the helper returned for
    the studio prompt, and the prompt is the studio prompt. *)
Theorem generateStudioImage_returns (w : World) (image : GeneratedImage) :
  (studio w).1 = Return image ->
  image_prompt image = studio_prompt settings persona /\
  (studio_unit w).1 = Return (image_url image) /\
  png_data_uri (image_url image) /\
  console_error (studio w).2 = console_error w.
Proof.
  rewrite generateStudioImage_run.
  destruct (studio_unit w).1 as [u|e] eqn:E; cbn [fst snd].
  - intros [= <-]. cbn [image_url image_prompt]. split; [done |]. split; [done |].
    split; [|apply generateSingleImage_keeps].
    by eapply generateSingleImage_url_png.
  - unfold thrown_by_handler. rewrite handleGeminiError_run. discriminate.
Qed.

(** X6: when the service rejects the request, studio mode throws the
    classified error, the permission error of the tier, the
    rate-limited error or the rejection itself, and [console.error] has
    printed the rejection. *)
Theorem generateStudioImage_rejected (w : World) (ai : GoogleGenAI) (e : JsError) :
  (getAiClient w).1 = Return ai ->
  generateContent (sent w)
    (single_image_request ai referenceImageBase64 (studio_prompt settings persona)
       modelType aspectRatio) = Throw e ->
  (permission_indicator (error_msg e) = true ->
   (studio w).1 = Throw (Error (match modelType with
                                | pro => billing_required
                                | standard => access_denied
                                end))) /\
  (permission_indicator (error_msg e) = false ->
   Str.includes (error_msg e) "429" = true ->
   (studio w).1 = Throw (Error quota_exceeded)) /\
  (permission_indicator (error_msg e) = false ->
   Str.includes (error_msg e) "429" = false ->
   (studio w).1 = Throw e) /\
  console_error (studio w).2 = console_error w ++ [e].
Proof.
  rewrite getAiClient_run. cbn [fst]. intros Hai Hrej.
  rewrite generateStudioImage_run, generateSingleImage_run, Hai. cbv zeta.
  rewrite Hrej. cbn [fst snd]. unfold thrown_by_handler.
  rewrite handleGeminiError_run. cbn [fst snd console_error after_request].
  repeat split.
  - intros ->. unfold permission_error. by destruct modelType.
  - by intros -> ->.
  - by intros -> ->.
Qed.

(** X7: without a credential studio mode sends nothing and throws the
    missing-credential error, which [console.error] has printed. *)
Theorem generateStudioImage_missing_credential (w : World) (e : JsError) :
  (getAiClient w).1 = Throw e ->
  studio w =
    (Throw missing_credential,
     {| localStorage := localStorage w;
        sent := sent w;
        console_error := console_error w ++ [missing_credential] |}).
Proof.
  rewrite getAiClient_run. cbn [fst]. intros He.
  rewrite generateStudioImage_run.
  rewrite (generateSingleImage_no_credential _ _ _ _ w e He). cbn [fst snd].
  unfold thrown_by_handler. rewrite handleGeminiError_run. cbn [fst].
  destruct missing_credential_not_classified as (-> & -> & _). done.
Qed.

End StudioFacts.

(** ** The orchestrator *)

Lemma fatal_or_not (outcomes : list (string * Completion string)) :
  Exists fatal_outcome outcomes \/ Forall (fun o => ~ fatal_outcome o) outcomes.
Proof.
  destruct (existsb (fun o => is_fatal (frame_of o)) outcomes) eqn:E.
  - left. by apply some_fatal_check.
  - right. by apply no_fatal_check.
Qed.

(** Among several fatal outcomes there is a first. *)
Lemma first_fatal (outcomes : list (string * Completion string)) :
  Exists fatal_outcome outcomes ->
  exists before p e after,
    outcomes = before ++ (p, Throw e) :: after /\
    Forall (fun o => ~ fatal_outcome o) before /\ permission_denied e.
Proof.
  induction outcomes as [|o os IH]; [by intros ?%Exists_nil |].
  intros Hex. destruct (is_fatal (frame_of o)) eqn:E.
  - apply is_fatal_frame in E. destruct o as [p c].
    destruct E as (e & Hc & He). simpl in Hc. subst c. by exists [], p, e, os.
  - apply Exists_cons in Hex as [Ho%is_fatal_frame | Hex]; [congruence |].
    destruct (IH Hex) as (before & p & e & after & -> & Hb & He).
    exists (o :: before), p, e, after. split; [done |]. split; [|done].
    constructor; [|done]. intros Hf%is_fatal_frame. congruence.
Qed.

Lemma successes_sublist (outcomes : list (string * Completion string)) :
  sublist (List.map image_prompt (successes outcomes)) (List.map fst outcomes).
Proof.
  induction outcomes as [|[p [u|e]] os IH]; simpl.
  - constructor.
  - by constructor.
  - by constructor.
Qed.

Lemma successes_png (outcomes : list (string * Completion string)) :
  Forall (fun o => forall u, o.2 = Return u -> png_data_uri u) outcomes ->
  Forall (fun image => png_data_uri (image_url image)) (successes outcomes).
Proof.
  induction 1 as [|[p [u|e]] os Hu _ IH]; simpl; [constructor | | done].
  constructor; [|done]. by apply Hu.
Qed.

Section BatchFacts.
Context `{Platform}.
Variables (referenceImageBase64 : string) (modelType : ModelType)
  (aspectRatio : AspectRatio).

#[local] Abbreviation units :=
  (unit_outcomes referenceImageBase64 modelType aspectRatio).
#[local] Abbreviation joined :=
  (after_units referenceImageBase64 modelType aspectRatio).
#[local] Abbreviation story := (generateStoryBatch referenceImageBase64).
#[local] Abbreviation unit_request ai :=
  (fun p => single_image_request ai referenceImageBase64 p modelType aspectRatio).

(** Without a fatal outcome the batch resolves once all units have. *)
Lemma generateStoryBatch_resolves (prompts : list string) (w : World) :
  Forall (fun o => ~ fatal_outcome o) (units prompts w) ->
  story prompts modelType aspectRatio w =
    (Return (successes (units prompts w)), joined prompts w).
Proof.
  intros Hnf. unfold generateStoryBatch. unfold mbind at 1, Js_bind at 1.
  rewrite Promise_all_map_frames. unfold mbind at 1, Js_bind at 1.
  rewrite find_none.
  - unfold mret, Js_ret. f_equal. f_equal.
    apply delivered_successes, outcomes_truthy.
  - apply Forall_map. eapply Forall_impl; [exact Hnf |].
    intros o Ho. by apply is_fatal_frame_false.
Qed.

(** With one, it throws once all units have settled. *)
Lemma generateStoryBatch_throws (prompts : list string) (w : World)
    (before after : list (string * Completion string)) (p : string) (e : JsError) :
  units prompts w = before ++ (p, Throw e) :: after ->
  Forall (fun o => ~ fatal_outcome o) before ->
  permission_denied e ->
  story prompts modelType aspectRatio w =
    (Throw (permission_error (Some modelType)),
     {| localStorage := localStorage (joined prompts w);
        sent := sent (joined prompts w);
        console_error := console_error (joined prompts w) ++ [e] |}).
Proof.
  intros Hsplit Hb He.
  unfold generateStoryBatch. unfold mbind at 1, Js_bind at 1.
  rewrite Promise_all_map_frames, Hsplit. unfold mbind at 1, Js_bind at 1.
  rewrite List.map_app. cbn [List.map].
  rewrite (find_first is_fatal _ _ (frame_of (p, Throw e))).
  - cbn [frame_of error]. rewrite handleGeminiError_run.
    by rewrite (permission_denied_indicator e He).
  - apply Forall_map. eapply Forall_impl; [exact Hb |].
    intros o Ho. by apply is_fatal_frame_false.
  - apply is_fatal_frame. by exists e.
Qed.

Lemma units_png (prompts : list string) (w : World) :
  Forall (fun o => forall u, o.2 = Return u -> png_data_uri u) (units prompts w).
Proof.
  revert w. induction prompts as [|p prompts IH]; intros w; simpl; [constructor |].
  constructor; [|apply IH]. simpl. intros u Hu.
  by eapply generateSingleImage_url_png.
Qed.

(** With a credential, every unit sends its request, in the order of
    the prompts. *)
Lemma joined_sent (prompts : list string) (w : World) (ai : GoogleGenAI) :
  resolve_credential w = Return ai ->
  sent (joined prompts w) = sent w ++ List.map (unit_request ai) prompts.
Proof.
  revert w. induction prompts as [|p prompts IH]; intros w Hai; simpl.
  - by rewrite app_nil_r.
  - rewrite IH.
    + rewrite generateSingleImage_run, Hai. cbn [snd after_request sent].
      by rewrite <- app_assoc.
    + rewrite <- Hai. apply resolve_credential_localStorage.
      apply generateSingleImage_keeps.
Qed.


(** X8: the only error the batch ever throws is the permission error of
    its tier, and it throws it only when some unit ended in a 403 or
    permission-denied failure: rate-limit rejections, refusals and
    other failures of the units never reach the caller. *)
Theorem generateStoryBatch_throws_only_permission
    (prompts : list string) (w : World) (e : JsError) :
  (story prompts modelType aspectRatio w).1 = Throw e ->
  e = Error (match modelType with
             | pro => billing_required
             | standard => access_denied
             end) /\
  Exists fatal_outcome (units prompts w).
Proof.
  destruct (fatal_or_not (units prompts w)) as [Hex | Hnf].
  - destruct (first_fatal _ Hex) as (before & p & e' & after & Hsplit & Hb & He).
    rewrite (generateStoryBatch_throws _ _ _ _ _ _ Hsplit Hb He). cbn [fst].
    intros [= <-]. split; [|done]. unfold permission_error. by destruct modelType.
  - by rewrite (generateStoryBatch_resolves _ _ Hnf).
Qed.


(** X10: with a credential the batch sends exactly one request per
    prompt, in the order of the prompts, each for its own prompt,
    whether the batch then resolves or throws; it never writes
    [localStorage]. *)
Theorem generateStoryBatch_requests
    (prompts : list string) (w : World) (ai : GoogleGenAI) :
  (getAiClient w).1 = Return ai ->
  sent (story prompts modelType aspectRatio w).2 =
    sent w ++ List.map (unit_request ai) prompts /\
  localStorage (story prompts modelType aspectRatio w).2 = localStorage w.
Proof.
  rewrite getAiClient_run. cbn [fst]. intros Hai.
  rewrite <- (joined_sent prompts w ai Hai).
  destruct (settled_console referenceImageBase64 modelType aspectRatio prompts w)
    as [_ Hls].
  destruct (fatal_or_not (units prompts w)) as [Hex | Hnf].
  - destruct (first_fatal _ Hex) as (before & p & e' & after & Hsplit & Hb & He).
    by rewrite (generateStoryBatch_throws _ _ _ _ _ _ Hsplit Hb He).
  - by rewrite (generateStoryBatch_resolves _ _ Hnf).
Qed.

(** X11: the images of a batch that resolves are never more than the
    prompts: their prompts are a subsequence of the input prompts, every
    URL is a PNG data-URI, and [console.error] has printed nothing. *)
Theorem generateStoryBatch_result_shape
    (prompts : list string) (w : World) (images : list GeneratedImage) :
  (story prompts modelType aspectRatio w).1 = Return images ->
  sublist (List.map image_prompt images) prompts /\
  length images <= length prompts /\
  Forall (fun image => png_data_uri (image_url image)) images /\
  console_error (story prompts modelType aspectRatio w).2 = console_error w.
Proof.
  destruct (fatal_or_not (units prompts w)) as [Hex | Hnf].
  - destruct (first_fatal _ Hex) as (before & p & e' & after & Hsplit & Hb & He).
    by rewrite (generateStoryBatch_throws _ _ _ _ _ _ Hsplit Hb He).
  - rewrite (generateStoryBatch_resolves _ _ Hnf). cbn [fst snd]. intros [= <-].
    assert (sublist (List.map image_prompt (successes (units prompts w))) prompts)
      as Hsub.
    { rewrite <- (outcomes_prompts referenceImageBase64 modelType aspectRatio
                    prompts w) at 2.
      apply successes_sublist. }
    split; [done |]. split.
    + apply sublist_length in Hsub. by rewrite length_map in Hsub.
    + split; [apply successes_png, units_png |].
      apply settled_console.
Qed.

End BatchFacts.

(** ** The handler, as a function *)

Lemma handleGeminiError_classified
    (e : JsError) (modelType : option ModelType) (w : World) :
  handleGeminiError e modelType w = (Throw (classified e modelType), printed e w).
Proof. by rewrite handleGeminiError_run. Qed.

Lemma error_msg_Error (m : string) : m <> "" -> error_msg (Error m) = m.
Proof. intros Hm%truthy_spec. unfold error_msg. simpl. by rewrite Hm. Qed.

(** Only the pro tier turns an error into the billing-required one. *)
Lemma classified_billing (e : JsError) (modelType : option ModelType) :
  classified e modelType = Error billing_required -> modelType = Some pro.
Proof.
  destruct handler_messages_indicators as (Hb & _). unfold classified.
  destruct (permission_indicator (error_msg e)) eqn:Hp.
  - unfold permission_error.
    destruct modelType as [[]|]; [discriminate | done | discriminate].
  - destruct (Str.includes (error_msg e) "429"); [discriminate |].
    intros ->. congruence.
Qed.

(** ** The key dialog *)

Lemma is_truthy_non_empty (value : option string) :
  is_truthy value = false <-> non_empty value = None.
Proof.
  destruct value as [s|]; simpl; [|done].
  destruct (Str.truthy s); split; congruence.
Qed.

Section KeyDialogFacts.
Context `{Platform} `{Runtime}.

Lemma checkApiKey_run (ui : KeyDialog) (w : World) :
  checkApiKey ui w =
    (Return (setApiKeyError
               (negb (is_truthy API_KEY) &&
                negb (is_truthy (localStorage w !! "gemini_api_key"))) ui),
     w).
Proof.
  unfold checkApiKey. js_unfold. cbv zeta.
  by destruct (negb (is_truthy API_KEY) && negb (is_truthy (localStorage w !! _))).
Qed.

Lemma resolve_credential_throws_iff (w : World) :
  (exists e, resolve_credential w = Throw e) <->
  is_truthy API_KEY = false /\
  is_truthy (localStorage w !! "gemini_api_key") = false.
Proof.
  rewrite !is_truthy_non_empty. unfold resolve_credential.
  destruct (non_empty (localStorage w !! _)), (non_empty API_KEY);
    split; try (intros [e [=]]); try (intros [[=] [=]]); try done; eauto.
Qed.

(** X12: the warning the application shows, and with which it
    disables its two generate buttons, is set exactly when
    [getAiClient] would throw: the check of the dialog and the lookup
    of the service agree on what a usable key is. *)
Theorem checkApiKey_agrees_with_getAiClient (ui : KeyDialog) (w : World) :
  exists ui',
    checkApiKey ui w = (Return ui', w) /\
    tempApiKey ui' = tempApiKey ui /\
    showApiKeyModal ui' = showApiKeyModal ui /\
    (apiKeyError ui' = true <-> exists e, (getAiClient w).1 = Throw e).
Proof.
  rewrite checkApiKey_run, getAiClient_run. cbn [fst].
  eexists. split; [done |]. split; [done |]. split; [done |].
  cbn [apiKeyError setApiKeyError].
  rewrite resolve_credential_throws_iff, andb_true_iff, !negb_true_iff. done.
Qed.

(** X13: saving a key whose trimmed text is not empty stores that
    text, clears the field, closes the dialog and withdraws the warning,
    and the next [getAiClient] returns a client for exactly that text;
    saving a blank key changes nothing, so it cannot erase a registered
    key. *)
Theorem handleSaveApiKey_registers (ui : KeyDialog) (w : World) :
  (String_trim (tempApiKey ui) <> "" ->
   handleSaveApiKey ui w =
     (Return {| tempApiKey := ""; showApiKeyModal := false; apiKeyError := false |},
      localStorage_setItem "gemini_api_key" (String_trim (tempApiKey ui)) w) /\
   (getAiClient (handleSaveApiKey ui w).2).1 =
     Return {| apiKey := String_trim (tempApiKey ui) |}) /\
  (String_trim (tempApiKey ui) = "" -> handleSaveApiKey ui w = (Return ui, w)).
Proof.
  split.
  - intros Hne. pose proof Hne as Ht%truthy_spec.
    assert (handleSaveApiKey ui w =
      (Return {| tempApiKey := ""; showApiKeyModal := false; apiKeyError := false |},
       localStorage_setItem "gemini_api_key" (String_trim (tempApiKey ui)) w))
      as Hrun.
    { unfold handleSaveApiKey. rewrite Ht.
      unfold mbind, Js_bind, localStorage_setItem_call. cbv zeta.
      rewrite checkApiKey_run.
      unfold localStorage_setItem at 1. cbn [localStorage].
      rewrite lookup_insert_eq. cbn [is_truthy]. by rewrite Ht, andb_false_r. }
    split; [done |]. rewrite Hrun. cbn [snd].
    rewrite getAiClient_run. cbn [fst].
    unfold resolve_credential, localStorage_setItem. cbn [localStorage].
    rewrite lookup_insert_eq. simpl. by rewrite Ht.
  - intros Hblank. unfold handleSaveApiKey. by rewrite Hblank.
Qed.

End KeyDialogFacts.

(** ** The reference image *)

Lemma generateReferenceImage_response_run
    (response : GenerateContentResponse) (w : World) :
  generateReferenceImage_response response w = (reference_outcome response, w).
Proof.
  unfold reference_outcome, generateReferenceImage_response. js_unfold.
  destruct (candidates response) as [[|c rest]|]; try done.
  destruct (scan_parts (parts (content c))); [done |].
  by destruct (find_text (parts (content c))).
Qed.

Lemma reference_outcome_returns (response : GenerateContentResponse) (u : string) :
  reference_outcome response = Return u -> png_data_uri u.
Proof.
  unfold reference_outcome, generateReferenceImage_response. js_unfold.
  destruct (candidates response) as [[|c rest]|]; try discriminate.
  destruct (scan_parts_cases (parts (content c)))
    as [(before & part & after & d & Hsplit & Hb & Hp) | Hnone].
  - rewrite Hsplit, (scan_parts_first _ _ _ _ Hb Hp). cbn. intros [= <-].
    by eapply png_data_uri_of_payload.
  - rewrite (scan_parts_none _ Hnone).
    by destruct (find_text (parts (content c))).
Qed.

Section ReferenceFacts.
Context `{Platform} `{Runtime}.
Variables (attrs : Creator.Attributes) (modelType : option ModelType)
  (aspectRatio : option AspectRatio).

#[local] Abbreviation reference :=
  (generateReferenceImage attrs modelType aspectRatio).

Lemma generateReferenceImage_run (w : World) :
  reference w =
    match resolve_credential w with
    | Return ai =>
        match generateContent_request (sent w)
                (reference_request ai attrs modelType aspectRatio) with
        | Return response =>
            match reference_outcome response with
            | Return u => (Return u, w)
            | Throw e =>
                (Throw (classified e (Some (default standard modelType))), printed e w)
            end
        | Throw e =>
            (Throw (classified e (Some (default standard modelType))), printed e w)
        end
    | Throw e => (Throw e, w)
    end.
Proof.
  unfold generateReferenceImage. cbv zeta. unfold mbind at 1, Js_bind at 1.
  rewrite getAiClient_run. destruct (resolve_credential w) as [ai|e]; [|done].
  unfold try_catch, mbind, Js_bind, models_generateContent_request, reference_request.
  destruct (generateContent_request (sent w) _) as [response|e].
  - rewrite generateReferenceImage_response_run.
    destruct (reference_outcome response) as [u|e]; [done |].
    by rewrite handleGeminiError_classified.
  - by rewrite handleGeminiError_classified.
Qed.

(** X14: what [generateReferenceImage] returns is a PNG data-URI, and
    a call that returns has printed nothing and changed nothing: the
    [throw] after the handler in its [catch] clause never decides. *)
Theorem generateReferenceImage_returns (w : World) (u : string) :
  (reference w).1 = Return u -> png_data_uri u /\ (reference w).2 = w.
Proof.
  rewrite generateReferenceImage_run.
  destruct (resolve_credential w) as [ai|e]; [|discriminate].
  destruct (generateContent_request (sent w) _) as [response|e]; [|discriminate].
  destruct (reference_outcome response) as [u'|e] eqn:E; [|discriminate].
  cbn [fst snd]. intros [= <-]. split; [|done].
  by eapply reference_outcome_returns.
Qed.

(** X15: a refusal reaches the caller with its text: when the first
    candidate of the answer has no image part but a text part, the
    function throws [Model refused:] followed by the text, unless that
    message itself carries 403, PERMISSION_DENIED or 429, in which case
    the handler replaces it by the permission or the rate-limited error;
    in every case [console.error] has printed the refusal. *)
Theorem generateReferenceImage_refusal
    (w : World) (ai : GoogleGenAI) (first : Candidate) (others : list Candidate)
    (t : string) :
  (getAiClient w).1 = Return ai ->
  generateContent_request (sent w) (reference_request ai attrs modelType aspectRatio) =
    Return {| candidates := Some (first :: others) |} ->
  Forall no_image (parts (content first)) ->
  find_text (parts (content first)) = Some t ->
  let refusal := "Model refused: " +:+ t in
  (permission_indicator refusal = false -> Str.includes refusal "429" = false ->
   (reference w).1 = Throw (Error refusal)) /\
  (permission_indicator refusal = false -> Str.includes refusal "429" = true ->
   (reference w).1 = Throw (Error quota_exceeded)) /\
  (permission_indicator refusal = true ->
   (reference w).1 = Throw (permission_error (Some (default standard modelType)))) /\
  (reference w).2 = printed (Error refusal) w.
Proof.
  rewrite getAiClient_run. cbn [fst]. intros Hai Hresp Hnone Ht.
  set (refusal := "Model refused: " +:+ t).
  rewrite generateReferenceImage_run, Hai, Hresp.
  unfold reference_outcome, generateReferenceImage_response. cbn [candidates].
  rewrite (scan_parts_none _ Hnone), Ht. cbn [fst snd throw].
  unfold classified. fold refusal.
  rewrite (error_msg_Error refusal) by done.
  repeat split.
  - by intros -> ->.
  - by intros -> ->.
  - by intros ->.
Qed.


(** X17: the billing-required error comes from the pro tier only: a
    call that throws it was made with [modelType] given as pro; with
    the default tier it is never thrown. *)
Theorem generateReferenceImage_billing_only_pro (w : World) :
  (reference w).1 = Throw (Error billing_required) -> modelType = Some pro.
Proof.
  rewrite generateReferenceImage_run.
  destruct (resolve_credential w) as [ai|e] eqn:Hai.
  - assert (forall e, classified e (Some (default standard modelType)) =
                      Error billing_required -> modelType = Some pro) as Hc.
    { intros e [= Hpro]%classified_billing.
      destruct modelType as [[]|]; simpl in Hpro; congruence. }
    destruct (generateContent_request (sent w) _) as [response|e].
    + destruct (reference_outcome response) as [u|e]; [discriminate |].
      cbn [fst]. intros [= He]. by eapply Hc.
    + cbn [fst]. intros [= He]. by eapply Hc.
  - rewrite (resolve_credential_throws _ _ Hai). cbn [fst]. discriminate.
Qed.

End ReferenceFacts.

(** ** Searching in a concatenation *)

Lemma includes_app_r (s t needle : string) :
  Str.includes t needle = true -> Str.includes (s +:+ t) needle = true.
Proof.
  intros (pre & post & ->)%StrFacts.includes_spec.
  apply StrFacts.includes_spec. exists (s +:+ pre), post.
  by rewrite StrFacts.append_assoc.
Qed.

Lemma includes_app_l (s t needle : string) :
  Str.includes s needle = true -> Str.includes (s +:+ t) needle = true.
Proof.
  intros (pre & post & ->)%StrFacts.includes_spec.
  apply StrFacts.includes_spec. exists pre, (post +:+ t).
  by rewrite !StrFacts.append_assoc.
Qed.

(** ** The persona and the story plan *)

Lemma failure_messages_not_classified :
  classified (Error "Failed to generate persona") None =
    Error "Failed to generate persona" /\
  classified (Error "Failed to plan story") None = Error "Failed to plan story".
Proof. split; vm_compute; reflexivity. Qed.

Section JsonFacts.
Context `{Platform} `{Runtime}.

(** What [parse_response_text] makes of a response. *)
Lemma parse_response_text_cases
    (response : GenerateContentResponse) (failure : string) (w : World) :
  (forall v, parses_to response v ->
     parse_response_text response failure w = (Return v, w)) /\
  (no_text response ->
     parse_response_text response failure w = (Throw (Error failure), w)) /\
  (forall v, (parse_response_text response failure w).1 = Return v ->
     parses_to response v) /\
  (parse_response_text response failure w).2 = w.
Proof.
  unfold parse_response_text, parses_to, no_text. js_unfold.
  destruct (response_text response) as [t|].
  - destruct (Str.truthy t) eqn:Ht.
    + apply truthy_spec in Ht. destruct (JSON_parse t) as [v|e] eqn:Hp.
      * repeat split.
        -- intros v' (t' & [= <-] & _ & Hv). congruence.
        -- intros [[=] | [= ->]]. done.
        -- intros v' [= <-]. by exists t.
      * repeat split.
        -- intros v' (t' & [= <-] & _ & Hv). congruence.
        -- intros [[=] | [= ->]]. done.
        -- discriminate.
    + assert (t = "") as -> by (by destruct t). repeat split.
      * by intros v (t' & [= <-] & Hne & _).
      * discriminate.
  - repeat split.
    + by intros v (t' & [=] & _).
    + discriminate.
Qed.

(** The two operations have the same shape: one request, then the
    text of the answer parsed, every failure after the credential handed
    to the handler without a tier. *)
Lemma json_operation_run
    (request : GoogleGenAI -> ContentRequest) (failure : string)
    (placeholder : JsValue) (w : World) :
  (ai ← getAiClient;
   try_catch
     (response ← models_generateContent_request (request ai);
      parse_response_text response failure)
     (fun error => _ ← handleGeminiError error None; mret placeholder)) w =
    match resolve_credential w with
    | Return ai =>
        match generateContent_request (sent w) (request ai) with
        | Return response =>
            match (parse_response_text response failure w).1 with
            | Return v => (Return v, w)
            | Throw e => (Throw (classified e None), printed e w)
            end
        | Throw e => (Throw (classified e None), printed e w)
        end
    | Throw e => (Throw e, w)
    end.
Proof.
  unfold mbind at 1, Js_bind at 1.
  rewrite getAiClient_run. destruct (resolve_credential w) as [ai|e]; [|done].
  unfold try_catch, mbind, Js_bind, models_generateContent_request.
  destruct (generateContent_request (sent w) (request ai)) as [response|e].
  - destruct (parse_response_text_cases response failure w) as (_ & _ & _ & Hw).
    destruct (parse_response_text response failure w) as [[v|e] w'] eqn:E;
      cbn [fst snd] in *; subst w'; [done |].
    by rewrite handleGeminiError_classified.
  - by rewrite handleGeminiError_classified.
Qed.

Lemma analyzePersona_run (referenceImageBase64 : string) (w : World) :
  analyzePersona referenceImageBase64 w =
    match resolve_credential w with
    | Return ai =>
        match generateContent_request (sent w)
                (persona_request ai referenceImageBase64) with
        | Return response =>
            match (parse_response_text response "Failed to generate persona" w).1 with
            | Return v => (Return v, w)
            | Throw e => (Throw (classified e None), printed e w)
            end
        | Throw e => (Throw (classified e None), printed e w)
        end
    | Throw e => (Throw e, w)
    end.
Proof.
  exact (json_operation_run (fun ai => persona_request ai referenceImageBase64)
           "Failed to generate persona" empty_object w).
Qed.

Lemma planStory_run (persona : Persona) (userScenario : option string) (w : World) :
  planStory persona userScenario w =
    match resolve_credential w with
    | Return ai =>
        match generateContent_request (sent w)
                (story_request ai persona userScenario) with
        | Return response =>
            match (parse_response_text response "Failed to plan story" w).1 with
            | Return v => (Return v, w)
            | Throw e => (Throw (classified e None), printed e w)
            end
        | Throw e => (Throw (classified e None), printed e w)
        end
    | Throw e => (Throw e, w)
    end.
Proof.
  exact (json_operation_run (fun ai => story_request ai persona userScenario)
           "Failed to plan story" empty_array w).
Qed.

(** X18: whatever [planStory] returns is the parse of the non-empty
    text of the answer to its one request: the empty array of its
    [catch] clause is never what decides, and a call that returns has
    printed nothing. *)
Theorem planStory_returns_parsed_text
    (persona : Persona) (userScenario : option string) (w : World) (v : JsValue) :
  (planStory persona userScenario w).1 = Return v ->
  exists ai response,
    (getAiClient w).1 = Return ai /\
    generateContent_request (sent w) (story_request ai persona userScenario) =
      Return response /\
    parses_to response v /\
    (planStory persona userScenario w).2 = w.
Proof.
  rewrite planStory_run, getAiClient_run. cbn [fst].
  destruct (resolve_credential w) as [ai|e]; [|discriminate].
  destruct (generateContent_request (sent w) _) as [response|e] eqn:E;
    [|discriminate].
  destruct (parse_response_text_cases response "Failed to plan story" w)
    as (_ & _ & Hret & _).
  destruct (parse_response_text response "Failed to plan story" w).1 as [v'|e];
    [|discriminate].
  cbn [fst snd]. intros [= <-]. exists ai, response. by split; [|split; [|split; [apply Hret |]]].
Qed.

(** X19: whatever [analyzePersona] returns is the parse of the
    non-empty text of the answer to its one request, never the empty
    object of its [catch] clause as such; the image it sent is the
    reference without a recognised header, declared as JPEG. *)
Theorem analyzePersona_returns_parsed_text
    (referenceImageBase64 : string) (w : World) (v : JsValue) :
  (analyzePersona referenceImageBase64 w).1 = Return v ->
  exists ai response,
    (getAiClient w).1 = Return ai /\
    generateContent_request (sent w)
      (PersonaRequest ai "gemini-2.5-flash" persona_prompt
         {| mimeType := Some "image/jpeg";
            data := Some (cleanBase64 referenceImageBase64) |}
         "application/json" persona_schema) = Return response /\
    parses_to response v /\
    (analyzePersona referenceImageBase64 w).2 = w.
Proof.
  rewrite analyzePersona_run, getAiClient_run. cbn [fst].
  destruct (resolve_credential w) as [ai|e]; [|discriminate].
  unfold persona_request.
  destruct (generateContent_request (sent w) _) as [response|e] eqn:E;
    [|discriminate].
  destruct (parse_response_text_cases response "Failed to generate persona" w)
    as (_ & _ & Hret & _).
  destruct (parse_response_text response "Failed to generate persona" w).1 as [v'|e];
    [|discriminate].
  cbn [fst snd]. intros [= <-]. exists ai, response. by split; [|split; [|split; [apply Hret |]]].
Qed.

(** X20: when the answer has no text, or an empty one, [planStory]
    throws [Failed to plan story] and [analyzePersona] throws
    [Failed to generate persona], each as it is, the handler finding
    nothing to classify in it, and [console.error] has printed it. *)
Theorem json_operations_without_text
    (persona : Persona) (userScenario : option string)
    (referenceImageBase64 : string) (w : World) (ai : GoogleGenAI)
    (response : GenerateContentResponse) :
  (getAiClient w).1 = Return ai ->
  no_text response ->
  (generateContent_request (sent w) (story_request ai persona userScenario) =
     Return response ->
   planStory persona userScenario w =
     (Throw (Error "Failed to plan story"),
      printed (Error "Failed to plan story") w)) /\
  (generateContent_request (sent w) (persona_request ai referenceImageBase64) =
     Return response ->
   analyzePersona referenceImageBase64 w =
     (Throw (Error "Failed to generate persona"),
      printed (Error "Failed to generate persona") w)).
Proof.
  rewrite getAiClient_run. cbn [fst]. intros Hai Hno.
  destruct failure_messages_not_classified as [Hp Hs]. split; intros Hresp.
  - rewrite planStory_run, Hai, Hresp.
    destruct (parse_response_text_cases response "Failed to plan story" w)
      as (_ & Hnt & _). rewrite (Hnt Hno). cbn [fst]. by rewrite Hs.
  - rewrite analyzePersona_run, Hai, Hresp.
    destruct (parse_response_text_cases response "Failed to generate persona" w)
      as (_ & Hnt & _). rewrite (Hnt Hno). cbn [fst]. by rewrite Hp.
Qed.

(** X21: [planStory] and [analyzePersona] hand no tier to the handler:
    neither ever throws the billing-required error, whatever the
    service answers or rejects with. *)
Theorem json_operations_never_billing
    (persona : Persona) (userScenario : option string)
    (referenceImageBase64 : string) (w : World) :
  (planStory persona userScenario w).1 <> Throw (Error billing_required) /\
  (analyzePersona referenceImageBase64 w).1 <> Throw (Error billing_required).
Proof.
  assert (forall e, classified e None <> Error billing_required) as Hc.
  { intros e He%classified_billing. discriminate. }
  rewrite planStory_run, analyzePersona_run.
  destruct (resolve_credential w) as [ai|e] eqn:Hai.
  - split.
    + destruct (generateContent_request (sent w) (story_request _ _ _)) as [r|e].
      * destruct (parse_response_text r _ w).1 as [v|e]; [discriminate |].
        cbn [fst]. intros [= He]. by eapply Hc.
      * cbn [fst]. intros [= He]. by eapply Hc.
    + destruct (generateContent_request (sent w) (persona_request _ _)) as [r|e].
      * destruct (parse_response_text r _ w).1 as [v|e]; [discriminate |].
        cbn [fst]. intros [= He]. by eapply Hc.
      * cbn [fst]. intros [= He]. by eapply Hc.
  - rewrite (resolve_credential_throws _ _ Hai). cbn [fst]. split; discriminate.
Qed.

(** X22: the scenario reaches the request only when it is not empty:
    a non-empty scenario appears in the text sent, between double
    quotes; an empty scenario gives the same text as no scenario, in
    which the generic scenario sentence stands. *)
Theorem planStory_scenario (persona : Persona) (scenario : string) :
  (scenario <> "" ->
   Str.includes (baseContext persona (Some scenario))
     ("about: " +:+ dq +:+ scenario +:+ dq +:+ ".") = true) /\
  baseContext persona (Some "") = baseContext persona None /\
  Str.includes (baseContext persona None)
    "SCENARIO: Create a trending, engaging lifestyle sequence" = true /\
  forall ai, story_request ai persona (Some "") = story_request ai persona None.
Proof.
  split; [|split; [reflexivity | split; [|reflexivity]]].
  - intros Ht%truthy_spec. unfold baseContext. rewrite Ht.
    do 17 apply includes_app_r.
    apply StrFacts.includes_spec.
    by exists "SPECIFIC SCENARIO: The user wants the story to be ",
      "
    
    REQUIREMENTS:
    - Return exactly 8 distinct image prompts.
    - **LOCATION CONSISTENCY (CRITICAL)**: The background and location MUST remain consistent across all 8 frames.
    - Each prompt must describe the outfit, background, action, and lighting.
    - Keep the outfit relatively consistent within the story.
  ".
  - unfold baseContext. do 17 apply includes_app_r.
    apply includes_app_l. vm_compute. reflexivity.
Qed.

End JsonFacts.

(** ** Concrete runs of the further properties *)

(** A 403 on the pro tier. *)
Lemma handleGeminiError_billing_only_pro_witness :
  fst (handleGeminiError (Error "403 Forbidden") (Some pro) empty_world) =
    Throw (Error billing_required) /\
  Some pro = Some pro.
Proof.
  assert (fst (handleGeminiError (Error "403 Forbidden") (Some pro) empty_world) =
          Throw (Error billing_required)) as Hthrown by (vm_compute; reflexivity).
  split; [exact Hthrown |].
  exact (handleGeminiError_billing_only_pro _ _ _ Hthrown).
Defined.

(** An answer whose first candidate has a text part and an image part. *)
Lemma generateSingleImage_returns_payload_witness :
  let answers := [Return (response_of [text_part "Here it is"; image_part "AAAA"])] in
  fst (generateSingleImage (H := scripted answers) "ref" "a" standard r1_1 empty_world) =
    Return "data:image/png;base64,AAAA" /\
  exists ai first others part d,
    fst (getAiClient (H := scripted answers) empty_world) = Return ai /\
    generateContent (Platform := scripted answers) (sent empty_world)
      (single_image_request ai "ref" "a" standard r1_1) =
      Return {| candidates := Some (first :: others) |} /\
    part ∈ parts (content first) /\ carries_image part d /\
    "data:image/png;base64,AAAA" = "data:image/png;base64," +:+ d /\
    sent (snd (generateSingleImage (H := scripted answers) "ref" "a" standard r1_1
                 empty_world)) =
      sent empty_world ++ [single_image_request ai "ref" "a" standard r1_1].
Proof.
  intros answers.
  assert (fst (generateSingleImage (H := scripted answers) "ref" "a" standard r1_1
                 empty_world) = Return "data:image/png;base64,AAAA")
    as Hret by (vm_compute; reflexivity).
  split; [exact Hret |].
  exact (generateSingleImage_returns_payload (H := scripted answers)
           "ref" "a" standard r1_1 empty_world _ Hret).
Defined.

(** Studio mode with the camera as the application starts it. *)
Lemma generateStudioImage_returns_witness :
  let answers := [Return (response_of [image_part "AAAA"])] in
  let image :=
    {| image_url := "data:image/png;base64,AAAA";
       image_prompt := studio_prompt (H := scripted answers) initial_camera sample_persona |} in
  fst (generateStudioImage (H := scripted answers) "ref" initial_camera sample_persona
         standard r1_1 empty_world) = Return image /\
  png_data_uri (image_url image).
Proof.
  intros answers image.
  assert (fst (generateStudioImage (H := scripted answers) "ref" initial_camera
                 sample_persona standard r1_1 empty_world) = Return image)
    as Hret by (vm_compute; reflexivity).
  split; [exact Hret |].
  exact (proj1 (proj2 (proj2 (generateStudioImage_returns (H := scripted answers)
           "ref" initial_camera sample_persona standard r1_1 empty_world image Hret)))).
Defined.

(** The service rejects the studio request with a rate-limit error. *)
Lemma generateStudioImage_rejected_witness :
  let rejection := Error "429 Too Many Requests" in
  let answers := [Throw rejection] in
  fst (getAiClient (H := scripted answers) empty_world) = Return {| apiKey := "env-key" |} /\
  fst (generateStudioImage (H := scripted answers) "ref" initial_camera sample_persona
         standard r1_1 empty_world) = Throw (Error quota_exceeded) /\
  console_error
    (snd (generateStudioImage (H := scripted answers) "ref" initial_camera sample_persona
            standard r1_1 empty_world)) = console_error empty_world ++ [rejection].
Proof.
  intros rejection answers.
  assert (fst (getAiClient (H := scripted answers) empty_world) =
          Return {| apiKey := "env-key" |}) as Hai by (vm_compute; reflexivity).
  destruct (generateStudioImage_rejected (H := scripted answers)
              "ref" initial_camera sample_persona standard r1_1 empty_world
              {| apiKey := "env-key" |} rejection Hai eq_refl)
    as (_ & Hquota & _ & Hlog).
  split; [exact Hai |]. split; [|exact Hlog].
  apply Hquota; vm_compute; reflexivity.
Defined.

(** No key in the environment, none registered. *)
Lemma generateStudioImage_missing_credential_witness :
  fst (getAiClient (H := keyless []) empty_world) = Throw missing_credential /\
  generateStudioImage (H := keyless []) "ref" initial_camera sample_persona
    standard r1_1 empty_world =
    (Throw missing_credential,
     {| localStorage := localStorage empty_world;
        sent := sent empty_world;
        console_error := console_error empty_world ++ [missing_credential] |}).
Proof.
  assert (fst (getAiClient (H := keyless []) empty_world) = Throw missing_credential)
    as Hno by (vm_compute; reflexivity).
  split; [exact Hno |].
  exact (generateStudioImage_missing_credential (H := keyless [])
           "ref" initial_camera sample_persona standard r1_1 empty_world _ Hno).
Defined.

(** A batch of two on the standard tier whose second unit gets a 403. *)
Lemma generateStoryBatch_throws_only_permission_witness :
  let answers := [Return (response_of [image_part "AAAA"]); Throw (Error "403 Forbidden")] in
  fst (generateStoryBatch (H := scripted answers) "ref" ["a"; "b"] standard r1_1
         empty_world) = Throw (Error access_denied) /\
  Exists fatal_outcome
    (unit_outcomes (H := scripted answers) "ref" standard r1_1 ["a"; "b"] empty_world).
Proof.
  intros answers.
  assert (fst (generateStoryBatch (H := scripted answers) "ref" ["a"; "b"] standard r1_1
                 empty_world) = Throw (Error access_denied))
    as Hthrown by (vm_compute; reflexivity).
  split; [exact Hthrown |].
  exact (proj2 (generateStoryBatch_throws_only_permission (H := scripted answers)
                  "ref" standard r1_1 ["a"; "b"] empty_world _ Hthrown)).
Defined.


(** A batch of two whose first unit is rejected: both requests left. *)
Lemma generateStoryBatch_requests_witness :
  let answers := [Throw (Error "403 Forbidden"); Return (response_of [image_part "AAAA"])] in
  let ai := {| apiKey := "env-key" |} in
  fst (getAiClient (H := scripted answers) empty_world) = Return ai /\
  sent (snd (generateStoryBatch (H := scripted answers) "ref" ["a"; "b"] pro r16_9
               empty_world)) =
    sent empty_world ++
    [single_image_request ai "ref" "a" pro r16_9;
     single_image_request ai "ref" "b" pro r16_9].
Proof.
  intros answers ai.
  assert (fst (getAiClient (H := scripted answers) empty_world) = Return ai)
    as Hai by (vm_compute; reflexivity).
  split; [exact Hai |].
  exact (proj1 (generateStoryBatch_requests (H := scripted answers)
                  "ref" pro r16_9 ["a"; "b"] empty_world ai Hai)).
Defined.

(** A batch of three whose second unit is rate-limited. *)
Lemma generateStoryBatch_result_shape_witness :
  let answers :=
    [Return (response_of [image_part "AAAA"]);
     Throw (Error "429 Too Many Requests");
     Return (response_of [image_part "BBBB"])] in
  let images :=
    [{| image_url := "data:image/png;base64,AAAA"; image_prompt := "a" |};
     {| image_url := "data:image/png;base64,BBBB"; image_prompt := "c" |}] in
  fst (generateStoryBatch (H := scripted answers) "ref" ["a"; "b"; "c"] standard r1_1
         empty_world) = Return images /\
  sublist (List.map image_prompt images) ["a"; "b"; "c"] /\
  length images <= 3.
Proof.
  intros answers images.
  assert (fst (generateStoryBatch (H := scripted answers) "ref" ["a"; "b"; "c"]
                 standard r1_1 empty_world) = Return images)
    as Hret by (vm_compute; reflexivity).
  destruct (generateStoryBatch_result_shape (H := scripted answers)
              "ref" standard r1_1 ["a"; "b"; "c"] empty_world images Hret)
    as (Hsub & Hlen & _).
  split; [exact Hret |]. split; [exact Hsub | exact Hlen].
Defined.

(** The reference image arrives. *)
Lemma generateReferenceImage_returns_witness :
  let runtime := plain_runtime (Return (response_of [image_part "AAAA"])) in
  fst (generateReferenceImage (H := scripted []) (H0 := runtime)
         sample_attributes None None empty_world) = Return "data:image/png;base64,AAAA" /\
  png_data_uri "data:image/png;base64,AAAA".
Proof.
  intros runtime.
  assert (fst (generateReferenceImage (H := scripted []) (H0 := runtime)
                 sample_attributes None None empty_world) =
          Return "data:image/png;base64,AAAA") as Hret by (vm_compute; reflexivity).
  split; [exact Hret |].
  exact (proj1 (generateReferenceImage_returns (H := scripted []) (H0 := runtime)
                  sample_attributes None None empty_world _ Hret)).
Defined.

(** The service explains why it made no image. *)
Lemma generateReferenceImage_refusal_witness :
  let first := candidate_of [text_part "I cannot generate that image."] in
  let runtime := plain_runtime (Return {| candidates := Some [first] |}) in
  fst (getAiClient (H := scripted []) empty_world) = Return {| apiKey := "env-key" |} /\
  fst (generateReferenceImage (H := scripted []) (H0 := runtime)
         sample_attributes None None empty_world) =
    Throw (Error "Model refused: I cannot generate that image.").
Proof.
  intros first runtime.
  assert (fst (getAiClient (H := scripted []) empty_world) =
          Return {| apiKey := "env-key" |}) as Hai by (vm_compute; reflexivity).
  split; [exact Hai |].
  apply (generateReferenceImage_refusal (H := scripted []) (H0 := runtime)
           sample_attributes None None empty_world {| apiKey := "env-key" |}
           first [] "I cannot generate that image." Hai eq_refl).
  - constructor; [|constructor]. intros d (blob & Hb & _). discriminate Hb.
  - reflexivity.
  - vm_compute. reflexivity.
  - vm_compute. reflexivity.
Defined.


(** A 403 on the pro tier. *)
Lemma generateReferenceImage_billing_only_pro_witness :
  let runtime := plain_runtime (Throw (Error "403 Forbidden")) in
  fst (generateReferenceImage (H := scripted []) (H0 := runtime)
         sample_attributes (Some pro) None empty_world) = Throw (Error billing_required) /\
  Some pro = Some pro.
Proof.
  intros runtime.
  assert (fst (generateReferenceImage (H := scripted []) (H0 := runtime)
                 sample_attributes (Some pro) None empty_world) =
          Throw (Error billing_required)) as Hthrown by (vm_compute; reflexivity).
  split; [exact Hthrown |].
  exact (generateReferenceImage_billing_only_pro (H := scripted []) (H0 := runtime)
           sample_attributes (Some pro) None empty_world Hthrown).
Defined.

(** The plan arrives as text. *)
Lemma planStory_returns_parsed_text_witness :
  let answer := response_of [text_part "[1, 2]"] in
  let runtime := plain_runtime (Return answer) in
  fst (planStory (H := scripted []) (H0 := runtime) sample_persona (Some "a day out")
         empty_world) = Return ("[1, 2]" : JsValue (Runtime := runtime)) /\
  exists ai response,
    fst (getAiClient (H := scripted []) empty_world) = Return ai /\
    generateContent_request (Runtime := runtime) (sent empty_world)
      (story_request ai sample_persona (Some "a day out")) = Return response /\
    parses_to (H := runtime) response "[1, 2]" /\
    snd (planStory (H := scripted []) (H0 := runtime) sample_persona (Some "a day out")
           empty_world) = empty_world.
Proof.
  intros answer runtime.
  assert (fst (planStory (H := scripted []) (H0 := runtime) sample_persona
                 (Some "a day out") empty_world) =
          Return ("[1, 2]" : JsValue (Runtime := runtime)))
    as Hret by (vm_compute; reflexivity).
  split; [exact Hret |].
  exact (planStory_returns_parsed_text (H := scripted []) (H0 := runtime)
           sample_persona (Some "a day out") empty_world _ Hret).
Defined.

(** The persona arrives as text. *)
Lemma analyzePersona_returns_parsed_text_witness :
  let answer := response_of [text_part "{}"] in
  let runtime := plain_runtime (Return answer) in
  fst (analyzePersona (H := scripted []) (H0 := runtime) "data:image/png;base64,AAAA"
         empty_world) = Return ("{}" : JsValue (Runtime := runtime)) /\
  exists ai response,
    fst (getAiClient (H := scripted []) empty_world) = Return ai /\
    generateContent_request (Runtime := runtime) (sent empty_world)
      (PersonaRequest ai "gemini-2.5-flash" persona_prompt
         {| mimeType := Some "image/jpeg";
            data := Some (cleanBase64 "data:image/png;base64,AAAA") |}
         "application/json" persona_schema) = Return response /\
    parses_to (H := runtime) response "{}" /\
    snd (analyzePersona (H := scripted []) (H0 := runtime) "data:image/png;base64,AAAA"
           empty_world) = empty_world.
Proof.
  intros answer runtime.
  assert (fst (analyzePersona (H := scripted []) (H0 := runtime)
                 "data:image/png;base64,AAAA" empty_world) =
          Return ("{}" : JsValue (Runtime := runtime)))
    as Hret by (vm_compute; reflexivity).
  split; [exact Hret |].
  exact (analyzePersona_returns_parsed_text (H := scripted []) (H0 := runtime)
           "data:image/png;base64,AAAA" empty_world _ Hret).
Defined.

(** An answer with an image part only has no text. *)
Lemma json_operations_without_text_witness :
  let answer := response_of [image_part "AAAA"] in
  let runtime := plain_runtime (Return answer) in
  fst (getAiClient (H := scripted []) empty_world) = Return {| apiKey := "env-key" |} /\
  no_text (H := runtime) answer /\
  planStory (H := scripted []) (H0 := runtime) sample_persona None empty_world =
    (Throw (Error "Failed to plan story"),
     printed (Error "Failed to plan story") empty_world) /\
  analyzePersona (H := scripted []) (H0 := runtime) "ref" empty_world =
    (Throw (Error "Failed to generate persona"),
     printed (Error "Failed to generate persona") empty_world).
Proof.
  intros answer runtime.
  assert (fst (getAiClient (H := scripted []) empty_world) =
          Return {| apiKey := "env-key" |}) as Hai by (vm_compute; reflexivity).
  assert (no_text (H := runtime) answer) as Hno by (left; reflexivity).
  destruct (json_operations_without_text (H := scripted []) (H0 := runtime)
              sample_persona None "ref" empty_world {| apiKey := "env-key" |} answer
              Hai Hno) as [Hstory Hpersona].
  split; [exact Hai |]. split; [exact Hno |].
  split; [exact (Hstory eq_refl) | exact (Hpersona eq_refl)].
Defined.

(** ** From the reference image to the persona *)

Lemma cleanBase64_png_data_uri (d : string) :
  cleanBase64 ("data:image/png;base64," +:+ d) = d.
Proof.
  change ("data:image/png;base64," +:+ d) with (image_header "png" +:+ d).
  apply cleanBase64_strips. unfold image_formats. by left.
Qed.

Section Pipeline.
Context `{Platform} `{Runtime}.

(** X23: the URL [generateReferenceImage] returns goes back to the
    service as the payload it came from: the application hands the URL
    to [analyzePersona], whose normalisation removes exactly the prefix
    that was put in front of the payload, so that the request carries
    the payload itself, declared as JPEG. *)
Theorem reference_image_round_trip
    (attrs : Creator.Attributes) (modelType : option ModelType)
    (aspectRatio : option AspectRatio) (w : World) (u : string) :
  (generateReferenceImage attrs modelType aspectRatio w).1 = Return u ->
  exists d,
    d <> "" /\
    u = "data:image/png;base64," +:+ d /\
    cleanBase64 u = d /\
    forall ai,
      persona_request ai u =
        PersonaRequest ai "gemini-2.5-flash" persona_prompt
          {| mimeType := Some "image/jpeg"; data := Some d |}
          "application/json" persona_schema.
Proof.
  rewrite generateReferenceImage_run.
  destruct (resolve_credential w) as [ai|e]; [|discriminate].
  destruct (generateContent_request (sent w) _) as [response|e]; [|discriminate].
  destruct (reference_outcome response) as [u'|e] eqn:E; [|discriminate].
  cbn [fst]. intros [= <-].
  apply reference_outcome_returns in E as (d & Hd & ->).
  exists d. split; [done |]. split; [done |].
  split; [apply cleanBase64_png_data_uri |].
  intros ai'. unfold persona_request. by rewrite cleanBase64_png_data_uri.
Qed.

End Pipeline.

(** The image made for the sample attributes, analysed in turn. *)
Lemma reference_image_round_trip_witness :
  let runtime := plain_runtime (Return (response_of [image_part "AAAA"])) in
  fst (generateReferenceImage (H := scripted []) (H0 := runtime)
         sample_attributes None None empty_world) = Return "data:image/png;base64,AAAA" /\
  exists d,
    d <> "" /\
    "data:image/png;base64,AAAA" = "data:image/png;base64," +:+ d /\
    cleanBase64 "data:image/png;base64,AAAA" = d /\
    forall ai,
      persona_request ai "data:image/png;base64,AAAA" =
        PersonaRequest ai "gemini-2.5-flash" persona_prompt
          {| mimeType := Some "image/jpeg"; data := Some d |}
          "application/json" persona_schema.
Proof.
  intros runtime.
  assert (fst (generateReferenceImage (H := scripted []) (H0 := runtime)
                 sample_attributes None None empty_world) =
          Return "data:image/png;base64,AAAA") as Hret by (vm_compute; reflexivity).
  split; [exact Hret |].
  exact (reference_image_round_trip (H := scripted []) (H0 := runtime)
           sample_attributes None None empty_world _ Hret).
Defined.
